(** * Blurit SDK: the authenticated request pipeline, the session and the
      options encoder

    A shallow embedding of [src/blurit.common.ts], [src/blurit.node.ts] and
    [src/blurit.browser.ts].  JavaScript values are an inductive type, the
    request configuration handed to the transport is a finite map from field
    names to values, and every method of the class is a computation over an
    explicit world: the client object, the requests handed to the transport
    so far and the write streams created so far. *)

From Stdlib Require Import ZArith List Bool Lia.
From Stdlib Require Ascii.
Import (notations) Ascii.
From stdpp Require Import base tactics option list strings gmap pretty.

Local Open Scope Z_scope.
Local Set Warnings "-register-all".

(** ** JavaScript values *)

(** [Blob]: the bytes and the [type] option its constructor was given
    ([None] when it was given none). *)
Record Blob := mkBlob {
  blob_bytes : list Byte.byte;
  blob_type : option string
}.

(** [File] is a [Blob] with a [name]. *)
Record File := mkFile {
  file_name : string;
  file_blob : Blob
}.

(** The TypeScript type [File | Blob]. *)
Inductive FileOrBlob :=
| IsFile (f : File)
| IsBlob (b : Blob).

(** The bytes and the content type a part carries. *)
Definition part_blob (d : FileOrBlob) : Blob :=
  match d with IsFile f => file_blob f | IsBlob b => b end.

(** What [FormData.append] stores: a string, or a binary part with the
    file name passed as third argument ([None] when it was omitted). *)
Inductive FormValue :=
| FText (text : string)
| FBinary (part : FileOrBlob) (filename : option string).

Definition FormEntry : Type := string * FormValue.

(** A number.  The library never computes on one: it hands numbers on and
    lets them be written as strings.  So a number is an integer, written
    in decimal notation, or any other number (a fraction, [NaN], an
    infinity, an integer too large for decimal notation), known by the
    text its string conversion gives. *)
Inductive Number :=
| NInt (z : Z)
| NOther (text : string).

Coercion NInt : Z >-> Number.

(** [String(n)]. *)
Definition Number_text (n : Number) : string :=
  match n with
  | NInt z => pretty z
  | NOther text => text
  end.

(** [!!n]: zero and [NaN] count as false. *)
Definition Number_truthy (n : Number) : bool :=
  match n with
  | NInt z => negb (z =? 0)
  | NOther text => negb (String.eqb text "NaN")
  end.

(** The values the library handles.  A plain object is the list of its own
    enumerable properties in enumeration order.  [VArrayBuffer] is the
    payload of a binary download; [VStream] is the readable stream the
    Node transport yields for the ["stream"] response type. *)
Inductive JsValue :=
| VUndefined
| VNull
| VBool (b : bool)
| VNum (n : Number)
| VStr (s : string)
| VArr (items : list JsValue)
| VObj (fields : list (string * JsValue))
| VBlob (b : Blob)
| VFile (f : File)
| VFormData (entries : list FormEntry)
| VArrayBuffer (bytes : list Byte.byte)
| VStream (bytes : list Byte.byte).

(** Induction over values, with the hypotheses for the items of an array and
    the fields of an object. *)
Section JsValue_induction.
Variable P : JsValue -> Prop.
Hypothesis Hundef : P VUndefined.
Hypothesis Hnull : P VNull.
Hypothesis Hbool : forall b, P (VBool b).
Hypothesis Hnum : forall n, P (VNum n).
Hypothesis Hstr : forall s, P (VStr s).
Hypothesis Harr : forall items, Forall P items -> P (VArr items).
Hypothesis Hobj : forall fields, Forall (fun kv => P (snd kv)) fields -> P (VObj fields).
Hypothesis Hblob : forall b, P (VBlob b).
Hypothesis Hfile : forall f, P (VFile f).
Hypothesis Hform : forall es, P (VFormData es).
Hypothesis Hbuf : forall bs, P (VArrayBuffer bs).
Hypothesis Hstream : forall bs, P (VStream bs).

Fixpoint JsValue_ind' (v : JsValue) : P v :=
    match v with
    | VUndefined => Hundef
    | VNull => Hnull
    | VBool b => Hbool b
    | VNum n => Hnum n
    | VStr s => Hstr s
    | VArr items =>
        Harr items
          ((fix go (l : list JsValue) : Forall P l :=
              match l with
              | [] => @List.Forall_nil _ P
              | x :: r => @List.Forall_cons _ P x r (JsValue_ind' x) (go r)
              end) items)
    | VObj fields =>
        Hobj fields
          ((fix go (l : list (string * JsValue)) : Forall (fun kv => P (snd kv)) l :=
              match l with
              | [] => @List.Forall_nil _ _
              | kv :: r => @List.Forall_cons _ (fun kv => P (snd kv)) kv r (JsValue_ind' (snd kv)) (go r)
              end) fields)
    | VBlob b => Hblob b
    | VFile f => Hfile f
    | VFormData es => Hform es
    | VArrayBuffer bs => Hbuf bs
    | VStream bs => Hstream bs
    end.
End JsValue_induction.

(** [!!v]: the values that count as false in a condition. *)
Definition truthy (v : JsValue) : bool :=
  match v with
  | VUndefined | VNull => false
  | VBool b => b
  | VNum n => Number_truthy n
  | VStr s => negb (String.eqb s EmptyString)
  | _ => true
  end.

(** [typeof v === "object"]; [typeof null] is ["object"] too. *)
Definition typeof_object (v : JsValue) : bool :=
  match v with
  | VUndefined | VBool _ | VNum _ | VStr _ => false
  | _ => true
  end.

(** [v instanceof File] and [v instanceof Blob]; a [File] is a [Blob]. *)
Definition instanceof_File (v : JsValue) : bool :=
  match v with VFile _ => true | _ => false end.

Definition instanceof_Blob (v : JsValue) : bool :=
  match v with VBlob _ | VFile _ => true | _ => false end.

(** [v instanceof FormData]. *)
Definition instanceof_FormData (v : JsValue) : bool :=
  match v with VFormData _ => true | _ => false end.

(** [v instanceof Error]: no value the transport deserializes, and none of
    the binary payloads, is an [Error] object. *)
Definition instanceof_Error (v : JsValue) : bool := false.

(** [v === undefined || v === null]. *)
Definition nullish (v : JsValue) : bool :=
  match v with VUndefined | VNull => true | _ => false end.

(** Lookup of an own property of a plain object by name. *)
Fixpoint own_property (fields : list (string * JsValue)) (k : string) : option JsValue :=
  match fields with
  | [] => None
  | (k', v) :: rest => if String.eqb k' k then Some v else own_property rest k
  end.

(** [v.k] for a property name [k] that no prototype defines (the library
    reads [token] and [refreshToken]): the own property of a plain object,
    [undefined] on any other value, and a [TypeError] ([None]) on
    [undefined] and [null]. *)
Definition get_prop (v : JsValue) (k : string) : option JsValue :=
  match v with
  | VUndefined | VNull => None
  | VObj fields => Some (default VUndefined (own_property fields k))
  | _ => Some VUndefined
  end.

(** [Array.prototype.join(",")] over already converted items. *)
Fixpoint join_comma (parts : list string) : string :=
  match parts with
  | [] => EmptyString
  | [p] => p
  | p :: rest => p +:+ "," +:+ join_comma rest
  end.

(** String conversion, as a template literal and [FormData.append] perform
    it.  [None] is the [TypeError]
    raised for an object that cannot be converted: a plain object whose own
    [toString] property shadows the inherited method with a value that is
    not a function. *)
Fixpoint to_string (v : JsValue) : option string :=
  match v with
  | VUndefined => Some "undefined"
  | VNull => Some "null"
  | VBool b => Some (if b then "true" else "false")
  | VNum n => Some (Number_text n)
  | VStr s => Some s
  | VArr items =>
      join_comma <$>
        ((fix go (l : list JsValue) : option (list string) :=
            match l with
            | [] => Some []
            | x :: r =>
                match (if nullish x then Some EmptyString else to_string x), go r with
                | Some s, Some ss => Some (s :: ss)
                | _, _ => None
                end
            end) items)
  | VObj fields =>
      match own_property fields "toString" with
      | Some _ => None
      | None => Some "[object Object]"
      end
  | VBlob _ => Some "[object Blob]"
  | VFile _ => Some "[object File]"
  | VFormData _ => Some "[object FormData]"
  | VArrayBuffer _ => Some "[object ArrayBuffer]"
  | VStream _ => Some "[object Object]"
  end.

(** ** The options encoder ([appendFormData]) *)

(** [formData.append(name, value)]: a [File] or [Blob] is stored as a
    binary part, any other value as its string conversion.  The encoder
    only passes primitives here, whose conversion cannot fail. *)
Definition FormData_append (formData : list FormEntry) (name : string) (value : JsValue)
  : list FormEntry :=
  formData ++ [(name,
                match value with
                | VFile f => FBinary (IsFile f) None
                | VBlob b => FBinary (IsBlob b) None
                | _ => FText (default EmptyString (to_string value))
                end)].

(** [formData.append(name, value, filename)] with a [File] or [Blob]. *)
Definition FormData_append_file (formData : list FormEntry) (name : string)
    (value : FileOrBlob) (filename : option string) : list FormEntry :=
  formData ++ [(name, FBinary value filename)].

(** A [string | undefined] used as a condition. *)
Definition truthy_key (parentKey : option string) : bool :=
  match parentKey with
  | Some s => negb (String.eqb s EmptyString)
  | None => false
  end.

(** [parentKey ? `${parentKey}[${key}]` : key]. *)
Definition newKey (parentKey : option string) (key : string) : string :=
  if truthy_key parentKey
  then default EmptyString parentKey +:+ "[" +:+ key +:+ "]"
  else key.

(** [parentKey!] used as a field name: [undefined] converts to
    ["undefined"]. *)
Definition key_name (parentKey : option string) : string :=
  default "undefined" parentKey.

(** [appendFormData(formData, data, parentKey)], returning the form after
    the appends.  The [for ... in] loop visits the fields of a plain object
    and the indices of an array; the other objects of this model have no
    enumerable property. *)
Fixpoint appendFormData (formData : list FormEntry) (data : JsValue)
    (parentKey : option string) : list FormEntry :=
  if truthy data && typeof_object data
     && negb (instanceof_File data || instanceof_Blob data)
  then
    match data with
    | VObj fields =>
        (fix loop (fd : list FormEntry) (fs : list (string * JsValue)) : list FormEntry :=
           match fs with
           | [] => fd
           | (key, x) :: rest =>
               loop (if negb (nullish x)
                     then appendFormData fd x (Some (newKey parentKey key))
                     else fd) rest
           end) formData fields
    | VArr items =>
        (fix loop (fd : list FormEntry) (i : nat) (xs : list JsValue) : list FormEntry :=
           match xs with
           | [] => fd
           | x :: rest =>
               loop (if negb (nullish x)
                     then appendFormData fd x (Some (newKey parentKey (pretty i)))
                     else fd) (S i) rest
           end) formData 0%nat items
    | _ => formData
    end
  else if negb (nullish data) then FormData_append formData (key_name parentKey) data
  else formData.

(** The type [AnonymizationOptions] and the object a value of it is. *)
Inductive AnonymizationType := blur | opaque | pixelate.

Record IncludedArea := mkIncludedArea {
  top : Number; bottom : Number; left : Number; right : Number
}.

Record BlurType := mkBlurType {
  anonymization_type : option AnonymizationType;
  smooth_padding : option Number;
  hex_color : option string;
  num_pixels : option Number
}.

Record AnonymizationOptions := mkAnonymizationOptions {
  activation_faces_blur : option bool;
  activation_plates_blur : option bool;
  output_detections_url : option bool;
  included_area : option IncludedArea;
  blur_type : option BlurType
}.

Definition AnonymizationType_name (t : AnonymizationType) : string :=
  match t with blur => "blur" | opaque => "opaque" | pixelate => "pixelate" end.

(** An optional field that is not set reads as [undefined]. *)
Definition js_optional {A} (f : A -> JsValue) (o : option A) : JsValue :=
  match o with Some a => f a | None => VUndefined end.

Definition js_of_IncludedArea (a : IncludedArea) : JsValue :=
  VObj [("top", VNum (top a)); ("bottom", VNum (bottom a));
        ("left", VNum (left a)); ("right", VNum (right a))].

Definition js_of_BlurType (b : BlurType) : JsValue :=
  VObj [("anonymization_type",
          js_optional (fun t => VStr (AnonymizationType_name t)) (anonymization_type b));
        ("smooth_padding", js_optional VNum (smooth_padding b));
        ("hex_color", js_optional VStr (hex_color b));
        ("num_pixels", js_optional VNum (num_pixels b))].

Definition js_of_AnonymizationOptions (o : AnonymizationOptions) : JsValue :=
  VObj [("activation_faces_blur", js_optional VBool (activation_faces_blur o));
        ("activation_plates_blur", js_optional VBool (activation_plates_blur o));
        ("output_detections_url", js_optional VBool (output_detections_url o));
        ("included_area", js_optional js_of_IncludedArea (included_area o));
        ("blur_type", js_optional js_of_BlurType (blur_type o))].

(** The options of the example script. *)
Definition example_options : AnonymizationOptions :=
  {| activation_faces_blur := Some true;
     activation_plates_blur := None;
     output_detections_url := None;
     included_area := None;
     blur_type := Some {| anonymization_type := Some pixelate;
                          smooth_padding := None;
                          hex_color := None;
                          num_pixels := Some (NInt 10) |} |}.

(** *** The encoding the specification describes *)

(** The values the encoder is meant for: primitives, absent values, files
    and blobs, and the arrays and plain objects built from them. *)
Fixpoint plain_data (v : JsValue) : bool :=
  match v with
  | VArr items => forallb plain_data items
  | VObj fields => forallb (fun kv => plain_data (snd kv)) fields
  | VFormData _ | VArrayBuffer _ | VStream _ => false
  | _ => true
  end.

(** The key path [k0; k1; ...; kn] written [k0[k1]...[kn]]. *)
Definition bracketed (path : list string) : string :=
  match path with
  | [] => EmptyString
  | k :: rest => fold_left (fun acc k' => acc +:+ "[" +:+ k' +:+ "]") rest k
  end.

(** The defined fields of a value, depth first, each with its key path: an
    absent value has none, a nested structure has those of its fields
    under the extended path, a scalar or a binary payload is one field. *)
Fixpoint defined_fields (path : list string) (v : JsValue) : list (list string * JsValue) :=
  match v with
  | VUndefined | VNull => []
  | VObj fields =>
      (fix each (fs : list (string * JsValue)) : list (list string * JsValue) :=
         match fs with
         | [] => []
         | (k, x) :: rest => defined_fields (path ++ [k]) x ++ each rest
         end) fields
  | VArr items =>
      (fix each (i : nat) (xs : list JsValue) : list (list string * JsValue) :=
         match xs with
         | [] => []
         | x :: rest => defined_fields (path ++ [pretty i]) x ++ each (S i) rest
         end) 0%nat items
  | _ => [(path, v)]
  end.

(** The form entry of a defined field. *)
Definition field_entry (f : list string * JsValue) : FormEntry :=
  (bracketed (fst f),
   match snd f with
   | VFile x => FBinary (IsFile x) None
   | VBlob b => FBinary (IsBlob b) None
   | v => FText (default EmptyString (to_string v))
   end).

(** The field names at the top of an options object are not empty. *)
Definition named_fields (v : JsValue) : bool :=
  match v with
  | VObj fields => forallb (fun kv => negb (String.eqb (fst kv) EmptyString)) fields
  | _ => false
  end.

(** ** The transport, the client object and the world *)

(** An [AxiosRequestConfig], and the per-call [RequestOpions], as the map
    from the names of the fields that are set to their values. *)
Abbreviation Config := (gmap string JsValue).

(** [o.k] on a configuration object: [undefined] when the field is not
    set. *)
Definition field (o : Config) (k : string) : JsValue :=
  default VUndefined (o !! k).

(** [...o] in an object literal; spreading [undefined] adds nothing. *)
Definition spread (o : option Config) : Config := default ∅ o.

(** The part of a response the pipeline reads; the status code is an
    integer. *)
Record Response := mkResponse {
  status : Z;
  statusText : string;
  data : JsValue
}.

(** What awaiting [axiosInstance.request(config)] gives: a response, or
    whatever the transport raises (a network-level failure, or a status
    its configuration does not accept). *)
Inductive TransportResult :=
| Responded (res : Response)
| Rejected (reason : string).

(** The transport instance of a client, with the remote service behind it:
    from the requests it was handed before and the present one to the
    result.  Any deterministic service is such a function. *)
Definition Transport : Type := list Config -> Config -> TransportResult.

(** The instance [axios.create({ baseURL })] builds is code of the axios
    library, not of this repository; this is its documented behaviour.  It
    settles a response by the [validateStatus] of the request
    configuration: a response is handed over when its status is 0, when
    [validateStatus] is set to a value that counts as false, or when
    [validateStatus] accepts the status; otherwise the instance raises its
    own error.  When no configuration sets [validateStatus] it is the
    default, [status >= 200 && status < 300].  The values of this model
    have no functions, so a [validateStatus] that is set and counts as true
    cannot be called. *)
Definition default_validateStatus (status : Z) : bool :=
  (200 <=? status) && (status <? 300).

Definition axios_settle (config : Config) (res : Response) : TransportResult :=
  if status res =? 0 then Responded res
  else
    match config !! "validateStatus" with
    | None =>
        if default_validateStatus (status res) then Responded res
        else Rejected ("Request failed with status code " +:+ pretty (status res))
    | Some validateStatus =>
        if truthy validateStatus
        then Rejected "validateStatus is not a function"
        else Responded res
    end.

(** The instance over a network: what the network answers is settled, what
    the network raises is raised. *)
Definition axios_create (network : Transport) : Transport := fun history config =>
  match network history config with
  | Responded res => axios_settle config res
  | Rejected reason => Rejected reason
  end.

(** What a method can throw. *)
Inductive Thrown :=
| JsError (message : string)
| TypeError
| TransportFailure (reason : string)
| FsFailure (path : string).

Inductive Outcome (A : Type) :=
| Returned (a : A)
| Threw (e : Thrown).
Arguments Returned {A} a.
Arguments Threw {A} e.

(** The fields of the class.  [axiosInstance] is the [Transport] the
    methods are run with. *)
Record Blurit := mkBlurit {
  loginData : JsValue;
  fetchInit : option Config;
  isNode : bool
}.

(** The client, the requests handed to the transport so far (oldest first)
    and the write streams created so far, each with the name of its file
    and the bytes of the source piped into it.  What the runtime then
    writes into the file, after the method that started the pipe has
    returned, is not part of the world: no method waits for it or sees it
    fail. *)
Record World := mkWorld {
  client : Blurit;
  wire : list Config;
  writeStreams : list (string * list Byte.byte)
}.

(** An awaited method: from the world before to the outcome and the world
    after. *)
Definition M (A : Type) : Type := World -> Outcome A * World.

#[global] Instance M_ret : MRet M := fun A a w => (Returned a, w).

#[global] Instance M_bind : MBind M := fun A B f m w =>
  match m w with
  | (Returned a, w') => f a w'
  | (Threw e, w') => (Threw e, w')
  end.

Definition throw {A} (e : Thrown) : M A := fun w => (Threw e, w).

Definition get_this : M Blurit := fun w => (Returned (client w), w).

(** A property read that raises [TypeError] on [undefined] and [null], and
    a string conversion that raises it on an unconvertible object. *)
Definition or_TypeError {A} (o : option A) : M A :=
  match o with Some a => mret a | None => throw TypeError end.

(** [constructor(fetchInit)], in a runtime where [window] is or is not
    defined. *)
Definition constructor (window_defined : bool) (fetchInit : option Config) : Blurit :=
  {| loginData := VObj [];
     fetchInit := fetchInit;
     isNode := negb window_defined |}.

(** [saveLoginData(data)]. *)
Definition saveLoginData (data : JsValue) : M unit := fun w =>
  (Returned tt,
   {| client := {| loginData := data;
                   fetchInit := fetchInit (client w);
                   isNode := isNode (client w) |};
      wire := wire w;
      writeStreams := writeStreams w |}).

(** The [headers] object of a request:
    [{ ...(options.noBearer ? {} : { Authorization: `Bearer ${this.loginData.token}` }) }].
    [None] is the [TypeError] of reading [token] on [undefined] or [null],
    or of converting an unconvertible token. *)
Definition bearer_headers (this : Blurit) (options : Config) : option JsValue :=
  if truthy (field options "noBearer") then Some (VObj [])
  else
    token ← get_prop (loginData this) "token";
    bearer ← to_string token;
    Some (VObj [("Authorization", VStr ("Bearer " +:+ bearer))]).

(** The object literal [{ url: path, ...this.fetchInit, ...options, data,
    headers }]: a later field replaces an earlier one of the same name. *)
Definition request_config (this : Blurit) (path : string) (options : Config)
    (data headers : JsValue) : Config :=
  <["headers" := headers]>
    (<["data" := data]>
       (options ∪ (spread (fetchInit this) ∪ {["url" := VStr path]}))).

(** The four response types of [getResultFile]. *)
Inductive ResponseType := rt_stream | rt_arraybuffer | rt_buffer | rt_blob.

Section Client.

(** The collaborators outside the library: the transport instance, the
    content-type sniffer and the file system. *)
Variable axiosInstance : Transport.

(** [await this.axiosInstance.request(config)]. *)
Definition axios_request (config : Config) : M Response := fun w =>
  let w' := {| client := client w; wire := wire w ++ [config]; writeStreams := writeStreams w |} in
  match axiosInstance (wire w) config with
  | Responded res => (Returned res, w')
  | Rejected reason => (Threw (TransportFailure reason), w')
  end.

(** [request(path, options)]. *)
Definition request (path : string) (options : Config) : M JsValue :=
  let payload :=
    if instanceof_FormData (field options "data")
    then field options "data" else field options "data" in
  this ← get_this;
  headers ← or_TypeError (bearer_headers this options);
  res ← axios_request (request_config this path options payload headers);
  if 300 <=? status res
  then throw (JsError ("Error calling " +:+ path +:+ ": " +:+ statusText res))
  else mret (data res).

(** The options [login] calls the pipeline with. *)
Definition login_options (clientId secretId : string) : Config :=
  {[ "method" := VStr "POST";
     "data" := VObj [("clientId", VStr clientId); ("secretId", VStr secretId)];
     "noBearer" := VBool true ]}.

(** [login(clientId, secretId)]. *)
Definition login (clientId secretId : string) : M JsValue :=
  data ← request "/login" (login_options clientId secretId);
  _ ← (if negb (instanceof_Error data) then saveLoginData data else mret tt);
  mret data.

(** The options [refresh] calls the pipeline with. *)
Definition refresh_options (refreshToken : JsValue) : Config :=
  {[ "method" := VStr "POST";
     "data" := VObj [("refreshToken", refreshToken)] ]}.

(** [refresh()]. *)
Definition refresh : M JsValue :=
  this ← get_this;
  refreshToken ← or_TypeError (get_prop (loginData this) "refreshToken");
  data ← request "/token" (refresh_options refreshToken);
  _ ← (if negb (instanceof_Error data) then saveLoginData data else mret tt);
  mret data.

(** The argument of [createJob]. *)
Record CreateJobArgs := mkCreateJobArgs {
  args_data : FileOrBlob;
  args_filename : option string;
  args_options : JsValue
}.

(** The form [createJob] builds. *)
Definition createJob_form (args : CreateJobArgs) : list FormEntry :=
  let data :=
    FormData_append_file [] "input_media" (args_data args)
      (match args_data args with
       | IsFile f => Some (file_name f)
       | IsBlob _ => args_filename args
       end) in
  if truthy (args_options args)
  then appendFormData data (args_options args) None
  else data.

(** [createJob(args)]. *)
Definition createJob (args : CreateJobArgs) : M JsValue :=
  request "/innovation-service/anonymization"
    {[ "method" := VStr "POST";
       "data" := VFormData (createJob_form args) ]}.

(** What [fileTypeFromBuffer] resolves to when it recognises the bytes. *)
Record FileTypeResult := mkFileTypeResult {
  ext : string;
  mime : string
}.

Variable fileTypeFromBuffer : list Byte.byte -> option FileTypeResult.

(** [createJobFromBuffer(buffer, filename, options)]; [type?.mime] is
    [undefined] when the bytes are not recognised. *)
Definition createJobFromBuffer (buffer : list Byte.byte) (filename : string)
    (options : JsValue) : M JsValue :=
  let type := fileTypeFromBuffer buffer in
  let fileBlob := {| blob_bytes := buffer; blob_type := mime <$> type |} in
  createJob {| args_data := IsBlob fileBlob;
               args_filename := Some filename;
               args_options := options |}.

(** [createJobFromFile(file, options)]. *)
Definition createJobFromFile (file : File) (options : JsValue) : M JsValue :=
  createJob {| args_data := IsFile file;
               args_filename := None;
               args_options := options |}.

(** [createJobFromBlob(blob, filename, options)]; a [File] is a [Blob] and
    can be passed as one. *)
Definition createJobFromBlob (blob : FileOrBlob) (filename : string)
    (options : JsValue) : M JsValue :=
  createJob {| args_data := blob;
               args_filename := Some filename;
               args_options := options |}.

(** [getJobStatus(jobId)]. *)
Definition getJobStatus (jobId : string) : M JsValue :=
  request ("/innovation-service/anonymization?anonymization_job_id=" +:+ jobId)
    {[ "method" := VStr "GET" ]}.

Definition ResponseType_name (t : ResponseType) : string :=
  match t with
  | rt_stream => "stream"
  | rt_arraybuffer => "arraybuffer"
  | rt_buffer => "buffer"
  | rt_blob => "blob"
  end.

(** [getResultFile(filename, responseType)]. *)
Definition getResultFile (filename : string) (responseType : ResponseType) : M JsValue :=
  this ← get_this;
  if negb (isNode this)
     && (match responseType with rt_buffer | rt_stream => true | _ => false end)
  then throw (JsError (ResponseType_name responseType +:+ " is not supported in the browser"))
  else
    request ("/innovation-service/result/" +:+ filename)
      {[ "method" := VStr "GET";
         "responseType" :=
           VStr (match responseType with
                 | rt_buffer => "arraybuffer"
                 | t => ResponseType_name t
                 end) ]}.

(** The webhook methods. *)
Definition getWebhooks : M JsValue :=
  request "/webhook-url/get-many" {[ "method" := VStr "GET" ]}.

Definition createWebhook (webhookUrl : string) : M JsValue :=
  request "/webhook-url"
    {[ "method" := VStr "POST";
       "data" := VObj [("webhookUrl", VStr webhookUrl)] ]}.

Definition updateWebhook (id webhookUrl : string) : M JsValue :=
  request ("/webhook-url/" +:+ id)
    {[ "method" := VStr "PUT";
       "data" := VObj [("webhookUrl", VStr webhookUrl)] ]}.

Definition deleteWebhook (id : string) : M JsValue :=
  request ("/webhook-url/" +:+ id) {[ "method" := VStr "DELETE" ]}.

Definition testWebhook (id : string) : M JsValue :=
  request ("/webhook-url/test/" +:+ id) {[ "method" := VStr "POST" ]}.

(** *** The Node.js class ([blurit.node.ts]) *)

(** [readFile(path)] resolves to the bytes of the file or rejects. *)
Variable readFile : string -> option (list Byte.byte).

(** [s.split("/")]. *)
Fixpoint split_slash (s : string) : list string :=
  match s with
  | EmptyString => [EmptyString]
  | String c rest =>
      if Ascii.eqb c "/"%char
      then EmptyString :: split_slash rest
      else match split_slash rest with
           | [] => [String c EmptyString]
           | piece :: pieces => String c piece :: pieces
           end
  end.

(** [filePath.split("/").pop()!]. *)
Definition last_segment (filePath : string) : string :=
  List.last (split_slash filePath) EmptyString.

(** [createJobFromPath(filePath, options)] of the Node.js class. *)
Definition Node_createJobFromPath (filePath : string) (options : JsValue) : M JsValue :=
  match readFile filePath with
  | None => throw (FsFailure filePath)
  | Some fileBuffer =>
      let name := last_segment filePath in
      createJobFromBuffer fileBuffer name options
  end.

(** [source.pipe(createWriteStream(outputFilename))]: the write stream is
    created and the pipe from a source with these bytes is started.  The
    call does not wait for the bytes to be written and does not throw when
    they cannot be. *)
Definition pipe_to_write_stream (outputFilename : string) (bytes : list Byte.byte)
  : M unit :=
  fun w =>
    (Returned tt,
     {| client := client w;
        wire := wire w;
        writeStreams := writeStreams w ++ [(outputFilename, bytes)] |}).

(** [saveResultFile(filename, outputFilename)] of the Node.js class: it
    awaits the download, starts the pipe and returns, without waiting for
    the pipe.  A value without a [pipe] method raises [TypeError]: on
    [undefined] and [null] at the property read, on any other value at the
    call, after the write stream has been created with nothing piped into
    it. *)
Definition Node_saveResultFile (filename outputFilename : string) : M JsValue :=
  responseData ← getResultFile filename rt_stream;
  match responseData with
  | VStream bytes => _ ← pipe_to_write_stream outputFilename bytes; mret VUndefined
  | VUndefined | VNull => throw TypeError
  | _ => _ ← pipe_to_write_stream outputFilename []; throw TypeError
  end.

(** *** The browser class ([blurit.browser.ts]) *)

Definition Browser_createJobFromPath : M JsValue :=
  throw (JsError "createJobFromPath is only available in Node.js").

Definition Browser_saveResultFile : M JsValue :=
  throw (JsError "saveResultFile is only available in Node.js").

(** *** The public methods as calls *)

(** Which entry point of the package the class of the client comes from. *)
Inductive Platform := NodeJs | Browser.

Inductive Call :=
| Login (clientId secretId : string)
| Refresh
| CreateJobFromBuffer (buffer : list Byte.byte) (filename : string) (options : JsValue)
| CreateJobFromFile (file : File) (options : JsValue)
| CreateJobFromBlob (blob : FileOrBlob) (filename : string) (options : JsValue)
| CreateJobFromPath (filePath : string) (options : JsValue)
| GetJobStatus (jobId : string)
| GetResultFile (filename : string) (responseType : ResponseType)
| SaveResultFile (filename outputFilename : string)
| GetWebhooks
| CreateWebhook (webhookUrl : string)
| UpdateWebhook (id webhookUrl : string)
| DeleteWebhook (id : string)
| TestWebhook (id : string).

Definition run (platform : Platform) (call : Call) : M JsValue :=
  match call with
  | Login clientId secretId => login clientId secretId
  | Refresh => refresh
  | CreateJobFromBuffer buffer filename options =>
      createJobFromBuffer buffer filename options
  | CreateJobFromFile file options => createJobFromFile file options
  | CreateJobFromBlob blob filename options => createJobFromBlob blob filename options
  | CreateJobFromPath filePath options =>
      match platform with
      | NodeJs => Node_createJobFromPath filePath options
      | Browser => Browser_createJobFromPath
      end
  | GetJobStatus jobId => getJobStatus jobId
  | GetResultFile filename responseType => getResultFile filename responseType
  | SaveResultFile filename outputFilename =>
      match platform with
      | NodeJs => Node_saveResultFile filename outputFilename
      | Browser => Browser_saveResultFile
      end
  | GetWebhooks => getWebhooks
  | CreateWebhook webhookUrl => createWebhook webhookUrl
  | UpdateWebhook id webhookUrl => updateWebhook id webhookUrl
  | DeleteWebhook id => deleteWebhook id
  | TestWebhook id => testWebhook id
  end.

(** A sequence of awaited calls; a call that throws is caught by the caller
    and the next one is made. *)
Fixpoint run_all (platform : Platform) (calls : list Call) (w : World) : World :=
  match calls with
  | [] => w
  | call :: rest => run_all platform rest (snd (run platform call w))
  end.

(** [Blurit.new(clientId, secretId, fetchInit)]: the instance, once the
    login has returned. *)
Definition new (window_defined : bool) (clientId secretId : string)
    (fetchInit : option Config) : Outcome Blurit * World :=
  let instance := constructor window_defined fetchInit in
  match login clientId secretId {| client := instance; wire := []; writeStreams := [] |} with
  | (Returned _, w) => (Returned (client w), w)
  | (Threw e, w) => (Threw e, w)
  end.

End Client.

(** ** Notions the properties are stated with *)

(** The requests handed to the transport between two worlds. *)
Definition issued (before after : World) : list Config :=
  drop (length (wire before)) (wire after).

(** The token of the session as the [Authorization] header spells it, when
    it can be read and converted. *)
Definition session_bearer (session : JsValue) : option string :=
  token ← get_prop session "token";
  to_string token.

(** The [headers] object with the bearer [t]. *)
Definition authorization_headers (t : string) : JsValue :=
  VObj [("Authorization", VStr ("Bearer " +:+ t))].

(** The calls that save login data. *)
Definition saves_session (call : Call) : bool :=
  match call with
  | Login _ _ | Refresh => true
  | _ => false
  end.

(** The create-job calls. *)
Definition creates_job (call : Call) : bool :=
  match call with
  | CreateJobFromBuffer _ _ _ | CreateJobFromFile _ _
  | CreateJobFromBlob _ _ _ | CreateJobFromPath _ _ => true
  | _ => false
  end.

(** The option fields of a create-job form. *)
Definition option_entries (options : JsValue) : list FormEntry :=
  if truthy options then appendFormData [] options None else [].

(** The form entries of a value of type [AnonymizationOptions], field by
    field: a field that is set under its bracketed key path, a field that
    is not set nowhere. *)
Definition optional_entry {A} (name : string) (text : A -> string) (o : option A)
  : list FormEntry :=
  match o with
  | Some a => [(name, FText (text a))]
  | None => []
  end.

Definition bool_text (b : bool) : string := if b then "true" else "false".

Definition options_entries (o : AnonymizationOptions) : list FormEntry :=
  optional_entry "activation_faces_blur" bool_text (activation_faces_blur o)
  ++ optional_entry "activation_plates_blur" bool_text (activation_plates_blur o)
  ++ optional_entry "output_detections_url" bool_text (output_detections_url o)
  ++ match included_area o with
     | Some a =>
         [("included_area[top]", FText (Number_text (top a)));
          ("included_area[bottom]", FText (Number_text (bottom a)));
          ("included_area[left]", FText (Number_text (left a)));
          ("included_area[right]", FText (Number_text (right a)))]
     | None => []
     end
  ++ match blur_type o with
     | Some b =>
         optional_entry "blur_type[anonymization_type]" AnonymizationType_name
           (anonymization_type b)
         ++ optional_entry "blur_type[smooth_padding]" Number_text (smooth_padding b)
         ++ optional_entry "blur_type[hex_color]" id (hex_color b)
         ++ optional_entry "blur_type[num_pixels]" Number_text (num_pixels b)
     | None => []
     end.

(** The call of the pipeline a method makes in a client state, when it
    gets that far: the path and the options. *)
Definition request_of (fileTypeFromBuffer : list Byte.byte -> option FileTypeResult)
    (readFile : string -> option (list Byte.byte))
    (platform : Platform) (this : Blurit) (call : Call) : option (string * Config) :=
  let job (args : CreateJobArgs) :=
    ("/innovation-service/anonymization",
     ({[ "method" := VStr "POST";
         "data" := VFormData (createJob_form args) ]} : Config)) in
  let sniffed (buffer : list Byte.byte) (filename : string) (options : JsValue) :=
    job {| args_data := IsBlob {| blob_bytes := buffer;
                                  blob_type := mime <$> fileTypeFromBuffer buffer |};
           args_filename := Some filename;
           args_options := options |} in
  let result (filename : string) (responseType : ResponseType) :=
    if negb (isNode this)
       && (match responseType with rt_buffer | rt_stream => true | _ => false end)
    then None
    else Some ("/innovation-service/result/" +:+ filename,
               ({[ "method" := VStr "GET";
                   "responseType" :=
                     VStr (match responseType with
                           | rt_buffer => "arraybuffer"
                           | t => ResponseType_name t
                           end) ]} : Config)) in
  match call with
  | Login clientId secretId => Some ("/login", login_options clientId secretId)
  | Refresh =>
      refreshToken ← get_prop (loginData this) "refreshToken";
      Some ("/token", refresh_options refreshToken)
  | CreateJobFromBuffer buffer filename options => Some (sniffed buffer filename options)
  | CreateJobFromFile file options =>
      Some (job {| args_data := IsFile file; args_filename := None;
                   args_options := options |})
  | CreateJobFromBlob blob filename options =>
      Some (job {| args_data := blob; args_filename := Some filename;
                   args_options := options |})
  | CreateJobFromPath filePath options =>
      match platform with
      | NodeJs =>
          fileBuffer ← readFile filePath;
          Some (sniffed fileBuffer (last_segment filePath) options)
      | Browser => None
      end
  | GetJobStatus jobId =>
      Some ("/innovation-service/anonymization?anonymization_job_id=" +:+ jobId,
            {[ "method" := VStr "GET" ]})
  | GetResultFile filename responseType => result filename responseType
  | SaveResultFile filename _ =>
      match platform with
      | NodeJs => result filename rt_stream
      | Browser => None
      end
  | GetWebhooks => Some ("/webhook-url/get-many", {[ "method" := VStr "GET" ]})
  | CreateWebhook webhookUrl =>
      Some ("/webhook-url",
            {[ "method" := VStr "POST";
               "data" := VObj [("webhookUrl", VStr webhookUrl)] ]})
  | UpdateWebhook id webhookUrl =>
      Some ("/webhook-url/" +:+ id,
            {[ "method" := VStr "PUT";
               "data" := VObj [("webhookUrl", VStr webhookUrl)] ]})
  | DeleteWebhook id => Some ("/webhook-url/" +:+ id, {[ "method" := VStr "DELETE" ]})
  | TestWebhook id => Some ("/webhook-url/test/" +:+ id, {[ "method" := VStr "POST" ]})
  end.

(** The statement that every field of the base configuration that neither
    the per-call options nor the computed headers set reaches the
    transport. *)
Definition base_fields_preserved : Prop :=
  forall (axiosInstance : Transport) (path : string) (options : Config) (w : World)
         (k : string) (v : JsValue) (config : Config),
    spread (fetchInit (client w)) !! k = Some v ->
    options !! k = None ->
    k <> "headers" ->
    config ∈ issued w (snd (request axiosInstance path options w)) ->
    config !! k = Some v.

(** The statement that the content type of the input media of every
    create-job call is the one sniffed from its bytes. *)
Definition content_type_sniffed : Prop :=
  forall (axiosInstance : Transport)
         (fileTypeFromBuffer : list Byte.byte -> option FileTypeResult)
         (readFile : string -> option (list Byte.byte))
         (platform : Platform) (call : Call) (w : World)
         (config : Config) (part : FileOrBlob) (filename : option string)
         (rest : list FormEntry),
    creates_job call = true ->
    config ∈ issued w (snd (run axiosInstance fileTypeFromBuffer readFile platform call w)) ->
    config !! "data" = Some (VFormData (("input_media", FBinary part filename) :: rest)) ->
    blob_type (part_blob part) = mime <$> fileTypeFromBuffer (blob_bytes (part_blob part)).

(** Between two worlds exactly one request went to the transport: a
    [POST] whose [data] is the given multipart form, with the bearer [t]
    in its headers. *)
Definition job_request_sent (before after : World) (t : string)
    (form : list FormEntry) : Prop :=
  exists config : Config,
    issued before after = [config]
    /\ config !! "data" = Some (VFormData form)
    /\ config !! "method" = Some (VStr "POST")
    /\ config !! "headers" = Some (authorization_headers t).

(** The statement that [refresh] always posts a request to the [/token]
    route. *)
Definition refresh_always_reaches_token_route : Prop :=
  forall (axiosInstance : Transport) (w : World),
  exists config : Config,
    issued w (snd (refresh axiosInstance w)) = [config]
    /\ config !! "url" = Some (VStr "/token").

(** *** A remote service and clients to run the methods on *)

Definition token_triple (token refreshToken : string) (expireTime : Z) : JsValue :=
  VObj [("token", VStr token);
        ("refreshToken", VStr refreshToken);
        ("expireTime", VNum expireTime)].

(** A service that answers [/login] and [/token] with a token triple and
    knows no other route, and the instance of a client in front of it. *)
Definition demo_network : Transport := fun history config =>
  match field config "url" with
  | VStr url =>
      if String.eqb url "/login"
      then Responded {| status := 200; statusText := "OK";
                        data := token_triple "t1" "r1" 3600 |}
      else if String.eqb url "/token"
      then Responded {| status := 200; statusText := "OK";
                        data := token_triple "t2" "r2" 3600 |}
      else Responded {| status := 404; statusText := "Not Found"; data := VNull |}
  | _ => Rejected "no url"
  end.

Definition demo_service : Transport := axios_create demo_network.

(** A service that accepts everything. *)
Definition accepting_service : Transport := fun history config =>
  Responded {| status := 200; statusText := "OK";
               data := VObj [("anonymization_job_id", VStr "job-1")] |}.

Definition png_sniffer (bytes : list Byte.byte) : option FileTypeResult :=
  Some {| ext := "png"; mime := "image/png" |}.

Definition no_files (path : string) : option (list Byte.byte) := None.

(** A client just constructed, in a browser and in Node.js. *)
Definition browser_world : World :=
  {| client := constructor true None; wire := []; writeStreams := [] |}.

Definition node_world : World :=
  {| client := constructor false None; wire := []; writeStreams := [] |}.

(** A client that holds a session. *)
Definition logged_in_world : World :=
  {| client := {| loginData := token_triple "t1" "r1" 3600;
                  fetchInit := None;
                  isNode := true |};
     wire := []; writeStreams := [] |}.

(** A client whose base configuration sets a proxy and a [data] field. *)
Definition configured_world : World :=
  {| client := {| loginData := token_triple "t1" "r1" 3600;
                  fetchInit := Some {[ "timeout" := VNum 5000;
                                       "data" := VStr "base" ]};
                  isNode := true |};
     wire := []; writeStreams := [] |}.

(** *** Further notions and services *)

(** Whether a string has a ["/"] in it. *)
Fixpoint has_slash (s : string) : bool :=
  match s with
  | EmptyString => false
  | String c rest => Ascii.eqb c "/"%char || has_slash rest
  end.

(** The calls that write a file: [saveResultFile] of the Node.js class. *)
Definition writes_file (platform : Platform) (call : Call) : bool :=
  match platform, call with
  | NodeJs, SaveResultFile _ _ => true
  | _, _ => false
  end.

(** A session value was handed over by the transport in a response with a
    status below 300. *)
Definition server_provided (axiosInstance : Transport) (session : JsValue) : Prop :=
  exists (history : list Config) (config : Config) (res : Response),
    axiosInstance history config = Responded res
    /\ status res < 300
    /\ data res = session.

(** A service that cannot be reached. *)
Definition unreachable_service : Transport := fun history config =>
  Rejected "connect ECONNREFUSED".

(** A service that answers every request with a stream of three bytes. *)
Definition download_service : Transport := fun history config =>
  Responded {| status := 200; statusText := "OK";
               data := VStream [Byte.xff; Byte.xd8; Byte.xff] |}.

(** A file system with one file. *)
Definition one_file (path : string) : option (list Byte.byte) :=
  if String.eqb path "./images/face.jpg"
  then Some [Byte.xff; Byte.xd8; Byte.xff]
  else None.

(** A client whose base configuration switches the status check of the
    instance off. *)
Definition lenient_world : World :=
  {| client := {| loginData := token_triple "t1" "r1" 3600;
                  fetchInit := Some {[ "validateStatus" := VNull ]};
                  isNode := true |};
     wire := []; writeStreams := [] |}.

(** A client whose session a login response set to [null]. *)
Definition null_session_world : World :=
  {| client := {| loginData := VNull; fetchInit := None; isNode := true |};
     wire := []; writeStreams := [] |}.

(** A client whose base configuration names a [url]. *)
Definition redirected_world : World :=
  {| client := {| loginData := token_triple "t1" "r1" 3600;
                  fetchInit := Some {[ "url" := VStr "/elsewhere" ]};
                  isNode := true |};
     wire := []; writeStreams := [] |}.

(** * Properties *)

(** ** Values and strings *)

Example to_string_array :
  to_string (VArr [VNum 1; VNull; VStr "a"; VArr [VBool true; VNum (-2)]]) = Some "1,,a,true,-2".
Proof. reflexivity. Qed.

Example last_segment_example : last_segment "./images/face.jpg" = "face.jpg".
Proof. reflexivity. Qed.

Example last_segment_plain : last_segment "face.jpg" = "face.jpg".
Proof. reflexivity. Qed.

(** ** The options encoder *)

Example appendFormData_example :
  appendFormData [] (js_of_AnonymizationOptions example_options) None
  = [("activation_faces_blur", FText "true");
     ("blur_type[anonymization_type]", FText "pixelate");
     ("blur_type[num_pixels]", FText "10")].
Proof. reflexivity. Qed.

Lemma append_nonempty (s t : string) : s <> EmptyString -> s +:+ t <> EmptyString.
Proof. destruct s; simpl; intros H; [congruence | discriminate]. Qed.

Lemma bracketed_snoc (path : list string) (k : string) :
  path <> [] -> bracketed (path ++ [k]) = bracketed path +:+ "[" +:+ k +:+ "]".
Proof.
  destruct path as [|k0 rest]; [congruence|].
  intros _. simpl. now rewrite fold_left_app.
Qed.

Lemma bracketed_nonempty (k : string) (rest : list string) :
  k <> EmptyString -> bracketed (k :: rest) <> EmptyString.
Proof.
  simpl. revert k.
  induction rest as [|k1 rest IH]; intros k Hk; simpl; [assumption|].
  apply IH. now apply append_nonempty.
Qed.

Lemma newKey_under (prefix key : string) :
  prefix <> EmptyString -> newKey (Some prefix) key = prefix +:+ "[" +:+ key +:+ "]".
Proof.
  intros H. unfold newKey, truthy_key.
  apply String.eqb_neq in H. now rewrite H.
Qed.

Lemma defined_fields_nullish (path : list string) (x : JsValue) :
  nullish x = true -> defined_fields path x = [].
Proof. destruct x; simpl; congruence. Qed.

(** Below a non-empty prefix the encoder appends the entries of the defined
    fields, in order. *)
Lemma appendFormData_under_prefix (v : JsValue) :
  plain_data v = true ->
  forall (formData : list FormEntry) (path : list string),
    path <> [] -> bracketed path <> EmptyString ->
    appendFormData formData v (Some (bracketed path))
    = formData ++ map field_entry (defined_fields path v).
Proof.
  induction v as [| |b|n|s|items IH|fields IH|b|f|es|bs|bs] using JsValue_ind';
    intros Hplain formData path Hpath Hkey; try discriminate Hplain.
  - simpl. now rewrite app_nil_r.
  - simpl. now rewrite app_nil_r.
  - destruct b; reflexivity.
  - unfold appendFormData. simpl. destruct (Number_truthy n); reflexivity.
  - unfold appendFormData. simpl. destruct (String.eqb s EmptyString); reflexivity.
  - simpl in Hplain. simpl.
    generalize 0%nat as i. revert formData.
    induction items as [|x rest IHrest]; intros formData i.
    + now rewrite app_nil_r.
    + apply andb_prop in Hplain as [Hx Hrest].
      apply Forall_cons in IH as [IHx IHr].
      specialize (IHrest IHr Hrest).
      rewrite map_app, app_assoc, <- IHrest. f_equal.
      destruct (nullish x) eqn:Hn; simpl.
      * rewrite (defined_fields_nullish _ _ Hn). simpl. now rewrite app_nil_r.
      * rewrite newKey_under by assumption.
        rewrite <- bracketed_snoc by assumption.
        apply IHx; [assumption| |].
        -- destruct path; simpl; congruence.
        -- rewrite bracketed_snoc by assumption. now apply append_nonempty.
  - simpl in Hplain. simpl. revert formData.
    induction fields as [|[key x] rest IHrest]; intros formData.
    + now rewrite app_nil_r.
    + apply andb_prop in Hplain as [Hx Hrest]. simpl in Hx.
      apply Forall_cons in IH as [IHx IHr]. simpl in IHx.
      specialize (IHrest IHr Hrest).
      rewrite map_app, app_assoc, <- IHrest. f_equal.
      destruct (nullish x) eqn:Hn; simpl.
      * rewrite (defined_fields_nullish _ _ Hn). simpl. now rewrite app_nil_r.
      * rewrite newKey_under by assumption.
        rewrite <- bracketed_snoc by assumption.
        apply IHx; [assumption| |].
        -- destruct path; simpl; congruence.
        -- rewrite bracketed_snoc by assumption. now apply append_nonempty.
  - reflexivity.
  - reflexivity.
Qed.

(** At the top, where there is no prefix yet, a field goes under its own
    name. *)
Lemma appendFormData_plain_object (options : JsValue) (formData : list FormEntry) :
  plain_data options = true ->
  named_fields options = true ->
  appendFormData formData options None
  = formData ++ map field_entry (defined_fields [] options).
Proof.
  destruct options as [| | | | | |fields| | | | |]; try discriminate.
  intros Hplain Hnamed. simpl in *. revert formData.
  induction fields as [|[key x] rest IHrest]; intros formData.
  - now rewrite app_nil_r.
  - apply andb_prop in Hplain as [Hx Hrest]. simpl in Hx.
    apply andb_prop in Hnamed as [Hk Hnamed]. simpl in Hk.
    specialize (IHrest Hrest Hnamed).
    rewrite map_app, app_assoc, <- IHrest. f_equal.
    destruct (nullish x) eqn:Hn; simpl.
    + rewrite (defined_fields_nullish _ _ Hn). simpl. now rewrite app_nil_r.
    + apply negb_true_iff, String.eqb_neq in Hk.
      change (newKey None key) with (bracketed [key]).
      apply appendFormData_under_prefix; [assumption|congruence|].
      now apply bracketed_nonempty.
Qed.

(** What the encoder hands to [FormData.append] is a primitive, a [File]
    or a [Blob]; a primitive always converts to a string. *)
Lemma to_string_primitive (v : JsValue) :
  typeof_object v = false -> is_Some (to_string v).
Proof. destruct v; simpl; intros H; try discriminate H; eauto. Qed.

(** The encoder only appends: the entries already in the form stay in
    front, in order. *)
Lemma appendFormData_appends (v : JsValue) (formData : list FormEntry)
    (parentKey : option string) :
  appendFormData formData v parentKey = formData ++ appendFormData [] v parentKey.
Proof.
  revert formData parentKey.
  induction v as [| |b|n|s|items IH|fields IH|b|f|es|bs|bs] using JsValue_ind';
    intros formData parentKey; try (now rewrite app_nil_r).
  - destruct b; reflexivity.
  - unfold appendFormData. simpl. destruct (Number_truthy n); reflexivity.
  - unfold appendFormData. simpl. destruct (String.eqb s EmptyString); reflexivity.
  - simpl. generalize 0%nat as i. revert formData.
    induction items as [|x rest IHrest]; intros formData i.
    + now rewrite app_nil_r.
    + apply Forall_cons in IH as [IHx IHr]. specialize (IHrest IHr).
      rewrite IHrest.
      rewrite (IHrest (if negb (nullish x) then _ else [])).
      rewrite app_assoc. f_equal.
      destruct (negb (nullish x)); [apply IHx | now rewrite app_nil_r].
  - simpl. revert formData.
    induction fields as [|[key x] rest IHrest]; intros formData.
    + now rewrite app_nil_r.
    + apply Forall_cons in IH as [IHx IHr]. simpl in IHx. specialize (IHrest IHr).
      rewrite IHrest.
      rewrite (IHrest (if negb (nullish x) then _ else [])).
      rewrite app_assoc. f_equal.
      destruct (negb (nullish x)); [apply IHx | now rewrite app_nil_r].
  - reflexivity.
  - reflexivity.
Qed.

(** Every value of type [AnonymizationOptions] is plain data with named
    fields, and its defined fields are the ones it sets. *)
Lemma AnonymizationOptions_plain (o : AnonymizationOptions) :
  plain_data (js_of_AnonymizationOptions o) = true
  /\ named_fields (js_of_AnonymizationOptions o) = true.
Proof.
  destruct o as [f p d [a|] [[[t|] [sp|] [hc|] [np|]]|]];
    destruct f, p, d; split; reflexivity.
Qed.

Lemma AnonymizationOptions_fields (o : AnonymizationOptions) :
  map field_entry (defined_fields [] (js_of_AnonymizationOptions o))
  = options_entries o.
Proof.
  destruct o as [f p d [a|] [[[t|] [sp|] [hc|] [np|]]|]];
    destruct f, p, d; reflexivity.
Qed.

(** C5: the options encoder appends, after what the form already holds,
    one entry for each defined field of the options, depth first: a scalar
    under its bracketed key path, a [File] or [Blob] as a binary part under
    its key, nothing for a field that is [undefined] or [null] and nothing
    else.  For a value of type [AnonymizationOptions] these are the entries
    of the fields that are set, [blur_type[anonymization_type]] and the
    like. *)
Theorem appendFormData_defined_fields :
  (forall (options : JsValue) (formData : list FormEntry),
      plain_data options = true ->
      named_fields options = true ->
      appendFormData formData options None
      = formData ++ map field_entry (defined_fields [] options))
  /\ (forall (o : AnonymizationOptions) (formData : list FormEntry),
        appendFormData formData (js_of_AnonymizationOptions o) None
        = formData ++ options_entries o).
Proof.
  split.
  - intros options formData. apply appendFormData_plain_object.
  - intros o formData.
    destruct (AnonymizationOptions_plain o) as [Hplain Hnamed].
    rewrite appendFormData_plain_object by assumption.
    now rewrite AnonymizationOptions_fields.
Qed.

Lemma appendFormData_defined_fields_witness :
  appendFormData [] (js_of_AnonymizationOptions example_options) None
  = [] ++ map field_entry
            (defined_fields [] (js_of_AnonymizationOptions example_options)).
Proof.
  apply (proj1 appendFormData_defined_fields
           (js_of_AnonymizationOptions example_options) []);
    reflexivity.
Defined.

(** A fraction is written as JavaScript writes it, and a flag that is
    [false] is a defined field. *)
Example appendFormData_fraction :
  appendFormData []
    (js_of_AnonymizationOptions
       {| activation_faces_blur := Some false;
          activation_plates_blur := None;
          output_detections_url := None;
          included_area := Some {| top := NInt 0; bottom := NInt 100;
                                   left := NOther "0.5"; right := NInt 50 |};
          blur_type := None |}) None
  = [("activation_faces_blur", FText "false");
     ("included_area[top]", FText "0");
     ("included_area[bottom]", FText "100");
     ("included_area[left]", FText "0.5");
     ("included_area[right]", FText "50")].
Proof. reflexivity. Qed.

(** Under an empty field name at the top the prefix is lost: the condition
    [parentKey ? ... : key] takes the empty string for no prefix. *)
Example appendFormData_empty_name :
  appendFormData [] (VObj [(EmptyString, VObj [("a", VNum 1)])]) None = [("a", FText "1")].
Proof. reflexivity. Qed.

(** A nested file goes under its key as it is; an empty structure and a
    [null] leave no trace. *)
Example appendFormData_mixed :
  let logo := {| file_name := "logo.png";
                 file_blob := {| blob_bytes := []; blob_type := Some "image/png" |} |} in
  appendFormData []
    (VObj [("a", VObj [("b", VNum 0); ("c", VNull); ("d", VFile logo)]);
           ("e", VObj []);
           ("f", VArr [VStr "x"; VUndefined; VBool false])]) None
  = [("a[b]", FText "0");
     ("a[d]", FBinary (IsFile logo) None);
     ("f[0]", FText "x");
     ("f[2]", FText "false")].
Proof. reflexivity. Qed.

(** ** The request pipeline *)

(** One call of the pipeline, spelled out: a [TypeError] before anything is
    sent when the headers cannot be computed, otherwise one request and
    the outcome the response decides. *)
Lemma request_unfold (axiosInstance : Transport) (path : string) (options : Config)
    (w : World) :
  request axiosInstance path options w =
  match bearer_headers (client w) options with
  | None => (Threw TypeError, w)
  | Some headers =>
      let config :=
        request_config (client w) path options (field options "data") headers in
      let w' := {| client := client w; wire := wire w ++ [config]; writeStreams := writeStreams w |} in
      match axiosInstance (wire w) config with
      | Responded res =>
          (if 300 <=? status res
           then Threw (JsError ("Error calling " +:+ path +:+ ": " +:+ statusText res))
           else Returned (data res), w')
      | Rejected reason => (Threw (TransportFailure reason), w')
      end
  end.
Proof.
  unfold request, mbind, M_bind, get_this, or_TypeError, axios_request, throw, mret, M_ret.
  destruct (instanceof_FormData (field options "data"));
    destruct (bearer_headers (client w) options) as [headers|]; try reflexivity;
    destruct (axiosInstance _ _) as [res|reason]; try reflexivity;
    destruct (300 <=? status res); reflexivity.
Qed.

Lemma issued_nothing (w : World) : issued w w = [].
Proof. unfold issued. apply drop_all. Qed.

Lemma issued_one (w : World) (config : Config) (d : list (string * list Byte.byte)) :
  issued w {| client := client w; wire := wire w ++ [config]; writeStreams := d |} = [config].
Proof. unfold issued. simpl. now rewrite drop_app_length. Qed.

(** The pipeline leaves the client and the write streams alone, and hands at most
    one request to the transport. *)
Lemma request_frame (axiosInstance : Transport) (path : string) (options : Config)
    (w : World) :
  let w' := snd (request axiosInstance path options w) in
  client w' = client w /\ writeStreams w' = writeStreams w /\
  (wire w' = wire w \/
   exists headers,
     bearer_headers (client w) options = Some headers /\
     wire w' = wire w ++ [request_config (client w) path options
                            (field options "data") headers]).
Proof.
  rewrite request_unfold.
  destruct (bearer_headers (client w) options) as [headers|]; simpl.
  - destruct (axiosInstance _ _); simpl; eauto 6.
  - auto.
Qed.

(** A field other than [headers] and [data]: the per-call options come
    before the base configuration, and the path is the [url] when neither
    names one. *)
Lemma request_config_lookup (this : Blurit) (path : string) (options : Config)
    (payload headers : JsValue) (k : string) :
  k <> "headers" -> k <> "data" ->
  request_config this path options payload headers !! k
  = match options !! k with
    | Some v => Some v
    | None =>
        match spread (fetchInit this) !! k with
        | Some v => Some v
        | None => if String.eqb k "url" then Some (VStr path) else None
        end
    end.
Proof.
  intros Hh Hd. unfold request_config.
  rewrite lookup_insert_ne by congruence.
  rewrite lookup_insert_ne by congruence.
  destruct (options !! k) as [v|] eqn:Ho.
  - now apply lookup_union_Some_l.
  - rewrite lookup_union_r by assumption.
    destruct (spread (fetchInit this) !! k) as [v|] eqn:Hb.
    + now apply lookup_union_Some_l.
    + rewrite lookup_union_r by assumption.
      destruct (String.eqb k "url") eqn:Hk.
      * apply String.eqb_eq in Hk as ->. apply lookup_singleton_eq.
      * apply String.eqb_neq in Hk. apply lookup_singleton_ne. congruence.
Qed.

Ltac unfold_methods :=
  repeat progress unfold run, login, refresh, createJobFromBuffer, createJobFromFile,
    createJobFromBlob, createJob, getJobStatus, getResultFile, getWebhooks,
    createWebhook, updateWebhook, deleteWebhook, testWebhook,
    Node_createJobFromPath, Node_saveResultFile, Browser_createJobFromPath,
    Browser_saveResultFile, saveLoginData, pipe_to_write_stream,
    mbind, M_bind, get_this, or_TypeError, throw, mret, M_ret.

(** Names the result of the pipeline call in the goal and records what the
    call left unchanged. *)
Ltac name_request :=
  match goal with
  | |- context [request ?ax ?p ?o ?w] =>
      let F := fresh "Hframe" in
      let r := fresh "r" in
      let w' := fresh "w'" in
      pose proof (request_frame ax p o w) as F;
      destruct (request ax p o w) as [r w'];
      simpl in F; destruct F as (? & ? & ?)
  end.

(** Lookups in a configuration written out field by field. *)
Ltac lookup_fields :=
  unfold field, login_options, refresh_options;
  repeat first
    [ rewrite lookup_insert_eq
    | rewrite lookup_insert_ne by discriminate
    | rewrite lookup_singleton_eq
    | rewrite lookup_singleton_ne by discriminate
    | rewrite lookup_empty ];
  simpl.

Section Methods.

Variable axiosInstance : Transport.
Variable fileTypeFromBuffer : list Byte.byte -> option FileTypeResult.
Variable readFile : string -> option (list Byte.byte).

Abbreviation run_call := (run axiosInstance fileTypeFromBuffer readFile).

(** Only [login] and [refresh] touch the client object. *)
Lemma run_client (platform : Platform) (call : Call) (w : World) :
  saves_session call = false ->
  client (snd (run_call platform call w)) = client w.
Proof.
  intros Hcall.
  destruct call; try discriminate Hcall; clear Hcall; unfold_methods;
    try destruct platform; simpl; try reflexivity;
    try (destruct (readFile filePath); simpl; [|reflexivity]);
    try (destruct (negb (isNode (client w)) && _); simpl; [reflexivity|]);
    try (name_request; destruct r as [d|e]; simpl; try assumption;
         destruct d; simpl; assumption).
Qed.

(** No call changes the base configuration or the detected runtime. *)
Lemma run_readonly (platform : Platform) (call : Call) (w : World) :
  fetchInit (client (snd (run_call platform call w))) = fetchInit (client w)
  /\ isNode (client (snd (run_call platform call w))) = isNode (client w).
Proof.
  destruct (saves_session call) eqn:Hcall.
  - destruct call; try discriminate Hcall; clear Hcall; unfold_methods; simpl.
    + name_request. destruct r as [d|e]; simpl; split; congruence.
    + destruct (get_prop (loginData (client w)) "refreshToken"); simpl; [|auto].
      name_request. destruct r as [d|e]; simpl; split; congruence.
  - now rewrite run_client.
Qed.

Lemma issued_same_wire (w w1 w2 : World) :
  wire w1 = wire w2 -> issued w w1 = issued w w2.
Proof. unfold issued. now intros ->. Qed.

(** What one call of the pipeline hands to the transport. *)
Lemma request_issued (path : string) (options : Config) (w : World) :
  issued w (snd (request axiosInstance path options w))
  = match bearer_headers (client w) options with
    | Some headers =>
        [request_config (client w) path options (field options "data") headers]
    | None => []
    end.
Proof.
  rewrite request_unfold.
  destruct (bearer_headers (client w) options) as [headers|]; simpl.
  - destruct (axiosInstance _ _); simpl; apply issued_one.
  - apply issued_nothing.
Qed.

(** A method hands to the transport what its pipeline call does. *)
Lemma run_wire (platform : Platform) (call : Call) (w : World) :
  wire (snd (run_call platform call w))
  = match request_of fileTypeFromBuffer readFile platform (client w) call with
    | Some (path, options) => wire (snd (request axiosInstance path options w))
    | None => wire w
    end.
Proof.
  destruct call; unfold_methods; unfold request_of; simpl; try reflexivity.
  - name_request. now destruct r.
  - destruct (get_prop (loginData (client w)) "refreshToken"); simpl; [|reflexivity].
    name_request. now destruct r.
  - destruct platform; [|reflexivity].
    now destruct (readFile filePath).
  - now destruct (negb (isNode (client w)) && _).
  - destruct platform; [|reflexivity].
    destruct (negb (isNode (client w)) && _); [reflexivity|].
    name_request. destruct r as [d|e]; [|reflexivity]. now destruct d.
Qed.

Lemma run_issued (platform : Platform) (call : Call) (w : World) :
  issued w (snd (run_call platform call w))
  = match request_of fileTypeFromBuffer readFile platform (client w) call with
    | Some (path, options) =>
        match bearer_headers (client w) options with
        | Some headers =>
            [request_config (client w) path options (field options "data") headers]
        | None => []
        end
    | None => []
    end.
Proof.
  destruct (request_of _ _ _ _ _) as [[path options]|] eqn:Hcall.
  - rewrite <- request_issued. apply issued_same_wire.
    now rewrite run_wire, Hcall.
  - rewrite <- (issued_nothing w). apply issued_same_wire.
    now rewrite run_wire, Hcall.
Qed.

(** Only [login] sets the [noBearer] flag. *)
Lemma request_of_noBearer (platform : Platform) (this : Blurit) (call : Call)
    (path : string) (options : Config) :
  request_of fileTypeFromBuffer readFile platform this call = Some (path, options) ->
  field options "noBearer"
  = match call with Login _ _ => VBool true | _ => VUndefined end.
Proof.
  unfold request_of.
  destruct call; simpl; try destruct platform;
    repeat match goal with
           | |- context [get_prop ?v ?k] => destruct (get_prop v k); simpl
           | |- context [readFile ?f] => destruct (readFile f); simpl
           | |- context [negb (isNode this) && ?c] => destruct (negb (isNode this) && c)
           end;
    intros Hcall; try discriminate Hcall;
    injection Hcall as <- <-; now lookup_fields.
Qed.

Lemma bearer_headers_suppressed (this : Blurit) (options : Config) :
  field options "noBearer" = VBool true -> bearer_headers this options = Some (VObj []).
Proof. unfold bearer_headers. now intros ->. Qed.

Lemma bearer_headers_attached (this : Blurit) (options : Config) :
  field options "noBearer" = VUndefined ->
  bearer_headers this options
  = authorization_headers <$> session_bearer (loginData this).
Proof.
  unfold bearer_headers, session_bearer. intros ->. simpl.
  destruct (get_prop (loginData this) "token") as [token|]; simpl; [|reflexivity].
  now destruct (to_string token).
Qed.

Lemma request_config_headers (this : Blurit) (path : string) (options : Config)
    (payload headers : JsValue) :
  request_config this path options payload headers !! "headers" = Some headers.
Proof. unfold request_config. apply lookup_insert_eq. Qed.

Lemma request_config_data (this : Blurit) (path : string) (options : Config)
    (payload headers : JsValue) :
  request_config this path options payload headers !! "data" = Some payload.
Proof.
  unfold request_config. rewrite lookup_insert_ne by discriminate.
  apply lookup_insert_eq.
Qed.

(** The headers of the requests a method issues. *)
Lemma run_headers (platform : Platform) (call : Call) (w : World) :
  Forall (fun config : Config =>
            match call with
            | Login _ _ => config !! "headers" = Some (VObj [])
            | _ =>
                exists t, session_bearer (loginData (client w)) = Some t
                          /\ config !! "headers" = Some (authorization_headers t)
            end)
    (issued w (snd (run_call platform call w))).
Proof.
  rewrite run_issued.
  destruct (request_of _ _ _ _ _) as [[path options]|] eqn:Hcall; [|constructor].
  apply request_of_noBearer in Hcall.
  destruct (bearer_headers (client w) options) as [headers|] eqn:Hheaders;
    [|constructor].
  apply Forall_singleton. rewrite request_config_headers.
  destruct call;
    try (rewrite (bearer_headers_suppressed _ _ Hcall) in Hheaders; congruence);
    rewrite (bearer_headers_attached _ _ Hcall) in Hheaders;
    destruct (session_bearer (loginData (client w))) as [t|]; try discriminate;
    exists t; simpl in Hheaders; (split; [reflexivity|congruence]).
Qed.

(** The wire only grows. *)
Lemma issued_app (w w' : World) (l : list Config) :
  wire w' = wire w ++ l -> issued w w' = l.
Proof. unfold issued. intros ->. apply drop_app_length. Qed.

Lemma run_wire_app (platform : Platform) (call : Call) (w : World) :
  wire (snd (run_call platform call w))
  = wire w ++ issued w (snd (run_call platform call w)).
Proof.
  assert (exists l, wire (snd (run_call platform call w)) = wire w ++ l) as [l Hl].
  { rewrite run_wire.
    destruct (request_of _ _ _ _ _) as [[path options]|].
    - destruct (request_frame axiosInstance path options w) as (_ & _ & [H|[h [_ H]]]).
      + exists []. now rewrite app_nil_r.
      + eauto.
    - exists []. now rewrite app_nil_r. }
  now rewrite (issued_app _ _ _ Hl).
Qed.

Lemma run_all_wire_app (platform : Platform) (calls : list Call) (w : World) :
  wire (run_all axiosInstance fileTypeFromBuffer readFile platform calls w)
  = wire w ++ issued w (run_all axiosInstance fileTypeFromBuffer readFile platform calls w).
Proof.
  assert (exists l, wire (run_all axiosInstance fileTypeFromBuffer readFile
                            platform calls w) = wire w ++ l) as [l Hl].
  { revert w. induction calls as [|call rest IH]; intros w; simpl.
    - exists []. now rewrite app_nil_r.
    - destruct (IH (snd (run_call platform call w))) as [l Hl].
      rewrite Hl, run_wire_app, <- app_assoc. eauto. }
  now rewrite (issued_app _ _ _ Hl).
Qed.

Lemma run_all_cons_issued (platform : Platform) (call : Call) (rest : list Call)
    (w : World) :
  let w1 := snd (run_call platform call w) in
  issued w (run_all axiosInstance fileTypeFromBuffer readFile platform (call :: rest) w)
  = issued w w1
    ++ issued w1 (run_all axiosInstance fileTypeFromBuffer readFile platform rest w1).
Proof.
  simpl. apply issued_app.
  now rewrite run_all_wire_app, run_wire_app, <- app_assoc.
Qed.

Lemma run_all_client (platform : Platform) (calls : list Call) (w : World) :
  forallb (fun call => negb (saves_session call)) calls = true ->
  client (run_all axiosInstance fileTypeFromBuffer readFile platform calls w) = client w.
Proof.
  revert w. induction calls as [|call rest IH]; intros w Hcalls; [reflexivity|].
  simpl in Hcalls. apply andb_prop in Hcalls as [Hcall Hrest].
  apply negb_true_iff in Hcall. simpl.
  rewrite (IH _ Hrest). now apply run_client.
Qed.

(** As long as no call saves login data, every request carries the token
    of the session the sequence started with. *)
Lemma run_all_headers (platform : Platform) (calls : list Call) (w : World) :
  forallb (fun call => negb (saves_session call)) calls = true ->
  Forall (fun config : Config =>
            exists t, session_bearer (loginData (client w)) = Some t
                      /\ config !! "headers" = Some (authorization_headers t))
    (issued w (run_all axiosInstance fileTypeFromBuffer readFile platform calls w)).
Proof.
  revert w. induction calls as [|call rest IH]; intros w Hcalls.
  - simpl. rewrite issued_nothing. constructor.
  - simpl in Hcalls. apply andb_prop in Hcalls as [Hcall Hrest].
    apply negb_true_iff in Hcall.
    rewrite run_all_cons_issued. apply Forall_app. split.
    + pose proof (run_headers platform call w) as H.
      destruct call; try discriminate Hcall; exact H.
    + specialize (IH (snd (run_call platform call w)) Hrest).
      now rewrite (run_client _ _ _ Hcall) in IH.
Qed.

(** [login] and [refresh] in terms of their pipeline call. *)
Lemma login_outcome (clientId secretId : string) (w : World) :
  fst (login axiosInstance clientId secretId w)
  = fst (request axiosInstance "/login" (login_options clientId secretId) w)
  /\ match login axiosInstance clientId secretId w with
     | (Returned d, w') => loginData (client w') = d
     | (Threw _, w') => loginData (client w') = loginData (client w)
     end.
Proof.
  unfold_methods. name_request.
  destruct r as [d|e]; simpl; split; congruence.
Qed.

Lemma refresh_outcome (w : World) :
  fst (refresh axiosInstance w)
  = match get_prop (loginData (client w)) "refreshToken" with
    | Some refreshToken =>
        fst (request axiosInstance "/token" (refresh_options refreshToken) w)
    | None => Threw TypeError
    end
  /\ match refresh axiosInstance w with
     | (Returned d, w') => loginData (client w') = d
     | (Threw _, w') => loginData (client w') = loginData (client w)
     end.
Proof.
  unfold_methods.
  destruct (get_prop (loginData (client w)) "refreshToken") as [refreshToken|];
    simpl; [|split; reflexivity].
  name_request. destruct r as [d|e]; simpl; split; congruence.
Qed.

End Methods.

(** C2, on the code: with the instance the constructor builds and no
    [validateStatus] in the base configuration or the options, a response
    with a status from 200 to 299 makes the pipeline return the response
    body as it is, whatever its shape; a response with a status of 300 or
    more never reaches the status check of the pipeline: the instance
    raises its own error and the pipeline throws that error, not the error
    made of the request path and the status text. *)
Theorem default_instance_rejects_status (network : Transport) (path : string)
    (options : Config) (w : World) (headers : JsValue) (res : Response) :
  bearer_headers (client w) options = Some headers ->
  options !! "validateStatus" = None ->
  spread (fetchInit (client w)) !! "validateStatus" = None ->
  network (wire w)
    (request_config (client w) path options (field options "data") headers)
  = Responded res ->
  (200 <= status res < 300 ->
   fst (request (axios_create network) path options w) = Returned (data res))
  /\ (300 <= status res ->
      fst (request (axios_create network) path options w)
      = Threw (TransportFailure
                 ("Request failed with status code " +:+ pretty (status res)))
      /\ fst (request (axios_create network) path options w)
         <> Threw (JsError ("Error calling " +:+ path +:+ ": " +:+ statusText res))).
Proof.
  intros Hheaders Hoptions Hbase Hres.
  rewrite request_unfold, Hheaders. simpl.
  unfold axios_create. rewrite Hres. unfold axios_settle.
  rewrite request_config_lookup by discriminate.
  rewrite Hoptions, Hbase. simpl. unfold default_validateStatus.
  split; intros Hstatus.
  - replace (status res =? 0) with false by (symmetry; apply Z.eqb_neq; lia).
    replace (200 <=? status res) with true by (symmetry; apply Z.leb_le; lia).
    replace (status res <? 300) with true by (symmetry; apply Z.ltb_lt; lia).
    simpl.
    now replace (300 <=? status res) with false by (symmetry; apply Z.leb_gt; lia).
  - replace (status res =? 0) with false by (symmetry; apply Z.eqb_neq; lia).
    replace (status res <? 300) with false by (symmetry; apply Z.ltb_ge; lia).
    rewrite andb_false_r. simpl. split; [reflexivity | discriminate].
Qed.

Lemma default_instance_rejects_status_witness :
  fst (request (axios_create demo_network) "/webhook-url/get-many"
         {[ "method" := VStr "GET" ]} logged_in_world)
  = Threw (TransportFailure "Request failed with status code 404")
  /\ fst (request (axios_create demo_network) "/login" (login_options "cid" "sid")
            browser_world)
     = Returned (token_triple "t1" "r1" 3600).
Proof.
  split.
  - destruct (default_instance_rejects_status demo_network "/webhook-url/get-many"
                {[ "method" := VStr "GET" ]} logged_in_world
                (authorization_headers "t1")
                {| status := 404; statusText := "Not Found"; data := VNull |})
      as [_ Hrejected];
      [vm_compute; reflexivity | vm_compute; reflexivity | reflexivity
       | vm_compute; reflexivity |].
    apply Hrejected. simpl. lia.
  - destruct (default_instance_rejects_status demo_network "/login"
                (login_options "cid" "sid") browser_world (VObj [])
                {| status := 200; statusText := "OK";
                   data := token_triple "t1" "r1" 3600 |})
      as [Hreturned _];
      [vm_compute; reflexivity | vm_compute; reflexivity | reflexivity
       | vm_compute; reflexivity |].
    apply Hreturned. simpl. lia.
Defined.

(** The status check of the pipeline is reached by a client whose base
    configuration switches the check of the instance off. *)
Example lenient_client_reaches_status_check :
  fst (request (axios_create demo_network) "/webhook-url/get-many"
         {[ "method" := VStr "GET" ]} lenient_world)
  = Threw (JsError "Error calling /webhook-url/get-many: Not Found").
Proof. vm_compute. reflexivity. Qed.

(** ** The session *)

(** C3: for every client state, [login] and [refresh] give the caller the
    outcome of their pipeline call; when it returns, the session is
    replaced by the returned value and that value is returned; when it
    throws, the session is what it was before the call and the error goes
    to the caller.  [refresh] also throws, leaving the session as it was,
    when the stored session is [undefined] or [null]. *)
Theorem login_refresh_session (axiosInstance : Transport) (clientId secretId : string)
    (w : World) :
  (fst (login axiosInstance clientId secretId w)
   = fst (request axiosInstance "/login" (login_options clientId secretId) w)
   /\ match login axiosInstance clientId secretId w with
      | (Returned d, w') => loginData (client w') = d
      | (Threw _, w') => loginData (client w') = loginData (client w)
      end)
  /\ (fst (refresh axiosInstance w)
      = match get_prop (loginData (client w)) "refreshToken" with
        | Some refreshToken =>
            fst (request axiosInstance "/token" (refresh_options refreshToken) w)
        | None => Threw TypeError
        end
      /\ match refresh axiosInstance w with
         | (Returned d, w') => loginData (client w') = d
         | (Threw _, w') => loginData (client w') = loginData (client w)
         end).
Proof. split; [apply login_outcome | apply refresh_outcome]. Qed.

(** A login the service accepts, and a refresh it rejects. *)
Example login_replaces_session :
  loginData (client (snd (login demo_service "cid" "sid" browser_world)))
  = token_triple "t1" "r1" 3600.
Proof. vm_compute. reflexivity. Qed.

(** [Blurit.new] hands back the instance with the session of its login. *)
Example new_logs_in :
  fst (new demo_service false "cid" "sid" None)
  = Returned {| loginData := token_triple "t1" "r1" 3600;
                fetchInit := None;
                isNode := true |}.
Proof. vm_compute. reflexivity. Qed.

Example rejected_refresh_keeps_session :
  let unauthorized : Transport := axios_create (fun _ _ =>
    Responded {| status := 401; statusText := "Unauthorized"; data := VNull |}) in
  fst (refresh unauthorized logged_in_world)
  = Threw (TransportFailure "Request failed with status code 401")
  /\ loginData (client (snd (refresh unauthorized logged_in_world)))
     = token_triple "t1" "r1" 3600.
Proof. vm_compute. split; reflexivity. Qed.

(** C10: every public method other than [login] and [refresh] ends,
    whether it returns or throws, with the session it started with. *)
Theorem other_calls_keep_session (axiosInstance : Transport)
    (fileTypeFromBuffer : list Byte.byte -> option FileTypeResult)
    (readFile : string -> option (list Byte.byte))
    (platform : Platform) (call : Call) (w : World) :
  saves_session call = false ->
  loginData (client (snd (run axiosInstance fileTypeFromBuffer readFile platform call w)))
  = loginData (client w).
Proof. intros Hcall. now rewrite run_client. Qed.

Lemma other_calls_keep_session_witness :
  loginData (client (snd (run demo_service png_sniffer no_files NodeJs
                            (GetJobStatus "job-1") logged_in_world)))
  = loginData (client logged_in_world).
Proof.
  apply (other_calls_keep_session demo_service png_sniffer no_files NodeJs
           (GetJobStatus "job-1") logged_in_world).
  reflexivity.
Defined.

(** C1: the requests of every public method other than [login] carry the
    header [Authorization: Bearer <t>], [t] being the token of the session
    at the time of the call, and the request of [login] carries no
    [Authorization] header; [login] is the only method whose pipeline call
    sets the [noBearer] flag. *)
Theorem requests_carry_bearer (axiosInstance : Transport)
    (fileTypeFromBuffer : list Byte.byte -> option FileTypeResult)
    (readFile : string -> option (list Byte.byte))
    (platform : Platform) (call : Call) (w : World) :
  Forall (fun config : Config =>
            match call with
            | Login _ _ => config !! "headers" = Some (VObj [])
            | _ =>
                exists t, session_bearer (loginData (client w)) = Some t
                          /\ config !! "headers" = Some (authorization_headers t)
            end)
    (issued w (snd (run axiosInstance fileTypeFromBuffer readFile platform call w)))
  /\ (forall (path : string) (options : Config),
        request_of fileTypeFromBuffer readFile platform (client w) call
        = Some (path, options) ->
        truthy (field options "noBearer")
        = match call with Login _ _ => true | _ => false end
        /\ (forall headers : JsValue,
              bearer_headers (client w) options = Some headers ->
              issued w (snd (run axiosInstance fileTypeFromBuffer readFile
                               platform call w))
              = [request_config (client w) path options
                   (field options "data") headers])).
Proof.
  split.
  - apply run_headers.
  - intros path options Hcall. split.
    + rewrite (request_of_noBearer _ _ _ _ _ _ _ Hcall). now destruct call.
    + intros headers Hheaders. now rewrite run_issued, Hcall, Hheaders.
Qed.

Lemma requests_carry_bearer_witness :
  truthy (field (login_options "cid" "sid") "noBearer") = true
  /\ issued logged_in_world
       (snd (run demo_service png_sniffer no_files NodeJs GetWebhooks logged_in_world))
     = [request_config (client logged_in_world) "/webhook-url/get-many"
          {[ "method" := VStr "GET" ]} VUndefined (authorization_headers "t1")].
Proof.
  split.
  - apply (proj2 (requests_carry_bearer demo_service png_sniffer no_files NodeJs
                    (Login "cid" "sid") browser_world)
             "/login" (login_options "cid" "sid")).
    reflexivity.
  - apply (proj2 (proj2 (requests_carry_bearer demo_service png_sniffer no_files NodeJs
                           GetWebhooks logged_in_world)
                    "/webhook-url/get-many" {[ "method" := VStr "GET" ]} eq_refl)
             (authorization_headers "t1")).
    vm_compute. reflexivity.
Defined.

(** The headers of a login and of a status request, as they are sent. *)
Example login_sends_no_authorization :
  (fun config : Config => config !! "headers")
    <$> issued browser_world (snd (login demo_service "cid" "sid" browser_world))
  = [Some (VObj [])].
Proof. vm_compute. reflexivity. Qed.

Example getJobStatus_sends_bearer :
  (fun config : Config => config !! "headers")
    <$> issued logged_in_world (snd (getJobStatus demo_service "job-1" logged_in_world))
  = [Some (VObj [("Authorization", VStr "Bearer t1")])].
Proof. vm_compute. reflexivity. Qed.

(** ** The request configuration *)

(** C9, as the code has it: the request handed to the transport is the
    path as [url], then the base configuration, then the per-call options,
    later layers replacing earlier ones, with [data] set to the [data] of
    the per-call options ([undefined] when they have none) and [headers]
    set to the computed headers, and it has no other field.  So every
    field of the base configuration other than [data], [headers] and those
    the per-call options set is in the request as it was. *)
Theorem request_config_layers (axiosInstance : Transport) (path : string)
    (options : Config) (w : World) (headers : JsValue) :
  bearer_headers (client w) options = Some headers ->
  exists config : Config,
    issued w (snd (request axiosInstance path options w)) = [config]
    /\ config !! "headers" = Some headers
    /\ config !! "data" = Some (field options "data")
    /\ (forall (k : string) (v : JsValue),
          k <> "headers" -> k <> "data" ->
          options !! k = Some v -> config !! k = Some v)
    /\ (forall (k : string) (v : JsValue),
          k <> "headers" -> k <> "data" ->
          options !! k = None ->
          spread (fetchInit (client w)) !! k = Some v -> config !! k = Some v)
    /\ (options !! "url" = None ->
        spread (fetchInit (client w)) !! "url" = None ->
        config !! "url" = Some (VStr path))
    /\ (forall k : string,
          config !! k
          = if String.eqb k "headers" then Some headers
            else if String.eqb k "data" then Some (field options "data")
            else match options !! k with
                 | Some v => Some v
                 | None =>
                     match spread (fetchInit (client w)) !! k with
                     | Some v => Some v
                     | None => if String.eqb k "url" then Some (VStr path) else None
                     end
                 end).
Proof.
  intros Hheaders.
  exists (request_config (client w) path options (field options "data") headers).
  split; [|split; [|split; [|split; [|split; [|split]]]]];
    [| | | | | |
     intros k;
     destruct (String.eqb k "headers") eqn:Hh;
       [apply String.eqb_eq in Hh as ->; apply request_config_headers|];
     destruct (String.eqb k "data") eqn:Hd;
       [apply String.eqb_eq in Hd as ->; apply request_config_data|];
     apply String.eqb_neq in Hh, Hd;
     now apply request_config_lookup].
  - now rewrite request_issued, Hheaders.
  - apply request_config_headers.
  - apply request_config_data.
  - intros k v Hh Hd Ho. rewrite request_config_lookup by assumption. now rewrite Ho.
  - intros k v Hh Hd Ho Hb. rewrite request_config_lookup by assumption.
    now rewrite Ho, Hb.
  - intros Ho Hb. rewrite request_config_lookup by discriminate.
    now rewrite Ho, Hb.
Qed.

Lemma request_config_layers_witness :
  exists config : Config,
    issued configured_world
      (snd (request demo_service "/webhook-url/get-many" {[ "method" := VStr "GET" ]}
              configured_world))
    = [config]
    /\ config !! "timeout" = Some (VNum 5000)
    /\ config !! "method" = Some (VStr "GET")
    /\ config !! "url" = Some (VStr "/webhook-url/get-many").
Proof.
  destruct (request_config_layers demo_service "/webhook-url/get-many"
              {[ "method" := VStr "GET" ]} configured_world
              (authorization_headers "t1"))
    as (config & Hissued & _ & _ & Hoptions & Hbase & Hurl & _);
    [vm_compute; reflexivity|].
  exists config. split; [exact Hissued|]. split; [|split].
  - apply Hbase; [discriminate | discriminate | vm_compute; reflexivity
                  | vm_compute; reflexivity].
  - apply Hoptions; [discriminate | discriminate | vm_compute; reflexivity].
  - apply Hurl; vm_compute; reflexivity.
Defined.

(** The [data] field of the base configuration does not reach the
    transport, though the options of a status request set no [data]. *)
Lemma base_data_not_preserved : ~ base_fields_preserved.
Proof.
  intros Hclaim.
  specialize (Hclaim demo_service "/webhook-url/get-many" {[ "method" := VStr "GET" ]}
                configured_world "data" (VStr "base")
                (request_config (client configured_world) "/webhook-url/get-many"
                   {[ "method" := VStr "GET" ]} VUndefined
                   (authorization_headers "t1"))).
  rewrite request_config_data in Hclaim.
  assert (Some VUndefined = Some (VStr "base")) as Habsurd; [|discriminate Habsurd].
  apply Hclaim.
  - vm_compute. reflexivity.
  - vm_compute. reflexivity.
  - discriminate.
  - rewrite request_issued.
    replace (bearer_headers (client configured_world) {[ "method" := VStr "GET" ]})
      with (Some (authorization_headers "t1")) by (vm_compute; reflexivity).
    apply list_elem_of_singleton. reflexivity.
Qed.

(** ** Refresh *)

(** What [refresh] hands to the transport when the session can be read. *)
Lemma refresh_issued (axiosInstance : Transport) (w : World)
    (refreshToken : JsValue) (t : string) :
  get_prop (loginData (client w)) "refreshToken" = Some refreshToken ->
  session_bearer (loginData (client w)) = Some t ->
  issued w (snd (refresh axiosInstance w))
  = [request_config (client w) "/token" (refresh_options refreshToken)
       (VObj [("refreshToken", refreshToken)]) (authorization_headers t)].
Proof.
  intros Hrt Ht.
  pose proof (run_issued axiosInstance (fun _ => None) (fun _ => None)
                NodeJs Refresh w) as H.
  simpl in H. rewrite Hrt in H. simpl in H.
  rewrite bearer_headers_attached, Ht in H by now lookup_fields.
  exact H.
Qed.

(** C7, as the code has it: whenever the session can be read, [refresh]
    posts the refresh token the session holds, whatever it is, to [/token]
    unless the base configuration names a [url]; on a client that never
    logged in it checks nothing and posts an [undefined] refresh token,
    with the bearer of an [undefined] token. *)
Theorem refresh_sends_stored_token (axiosInstance : Transport) :
  (forall (w : World) (refreshToken : JsValue) (t : string),
      get_prop (loginData (client w)) "refreshToken" = Some refreshToken ->
      session_bearer (loginData (client w)) = Some t ->
      exists config : Config,
        issued w (snd (refresh axiosInstance w)) = [config]
        /\ config !! "data" = Some (VObj [("refreshToken", refreshToken)])
        /\ config !! "method" = Some (VStr "POST")
        /\ config !! "headers" = Some (authorization_headers t)
        /\ (spread (fetchInit (client w)) !! "url" = None ->
            config !! "url" = Some (VStr "/token")))
  /\ (forall (window_defined : bool) (fetchInit : option Config),
        exists config : Config,
          wire (snd (refresh axiosInstance
                       {| client := constructor window_defined fetchInit;
                          wire := []; writeStreams := [] |}))
          = [config]
          /\ config !! "data" = Some (VObj [("refreshToken", VUndefined)])
          /\ config !! "headers" = Some (authorization_headers "undefined")).
Proof.
  split.
  - intros w refreshToken t Hrt Ht.
    eexists. split; [apply (refresh_issued _ _ _ _ Hrt Ht)|].
    split; [apply request_config_data|].
    split; [|split; [apply request_config_headers|]].
    + rewrite request_config_lookup by discriminate. now lookup_fields.
    + intros Hurl. rewrite request_config_lookup by discriminate.
      lookup_fields. now rewrite Hurl.
  - intros window_defined fetchInit.
    set (w := {| client := constructor window_defined fetchInit;
                 wire := []; writeStreams := [] |}).
    eexists. split; [|split; [apply request_config_data|apply request_config_headers]].
    change (wire (snd (refresh axiosInstance w)))
      with (issued w (snd (refresh axiosInstance w))).
    apply (refresh_issued axiosInstance w VUndefined "undefined"); reflexivity.
Qed.

Lemma refresh_sends_stored_token_witness :
  exists config : Config,
    issued logged_in_world (snd (refresh demo_service logged_in_world)) = [config]
    /\ config !! "data" = Some (VObj [("refreshToken", VStr "r1")])
    /\ config !! "method" = Some (VStr "POST")
    /\ config !! "headers" = Some (authorization_headers "t1")
    /\ config !! "url" = Some (VStr "/token").
Proof.
  destruct (proj1 (refresh_sends_stored_token demo_service)
              logged_in_world (VStr "r1") "t1")
    as (config & Hissued & Hdata & Hmethod & Hheaders & Hurl);
    [reflexivity | reflexivity |].
  exists config. repeat split; try assumption.
  apply Hurl. reflexivity.
Defined.

(** With a [url] in the base configuration the refresh goes to that [url],
    not to [/token]. *)
Lemma refresh_misses_token_route : ~ refresh_always_reaches_token_route.
Proof.
  intros Hclaim.
  destruct (Hclaim demo_service redirected_world) as (config & Hissued & Hurl).
  rewrite (refresh_issued demo_service redirected_world (VStr "r1") "t1" eq_refl eq_refl)
    in Hissued.
  injection Hissued as <-.
  rewrite request_config_lookup in Hurl by discriminate.
  vm_compute in Hurl. discriminate Hurl.
Qed.

(** On a session that a response set to [null] the refresh throws before
    anything is sent. *)
Example refresh_on_null_session :
  refresh demo_service null_session_world = (Threw TypeError, null_session_world).
Proof. reflexivity. Qed.

(** C8: when a login returns and the refresh after it returns too, the
    refresh posted the refresh token of the login response, the client
    holds what the refresh returned, every request of the calls that
    follow, up to the next login or refresh, carries the token the refresh
    returned, and the next refresh posts the refresh token the refresh
    returned. *)
Theorem login_then_refresh (axiosInstance : Transport)
    (fileTypeFromBuffer : list Byte.byte -> option FileTypeResult)
    (readFile : string -> option (list Byte.byte))
    (clientId secretId : string) (w0 w1 w2 : World) (d1 d2 : JsValue) :
  login axiosInstance clientId secretId w0 = (Returned d1, w1) ->
  refresh axiosInstance w1 = (Returned d2, w2) ->
  (exists (refreshToken : JsValue) (config : Config),
      get_prop d1 "refreshToken" = Some refreshToken
      /\ issued w1 w2 = [config]
      /\ config !! "data" = Some (VObj [("refreshToken", refreshToken)]))
  /\ loginData (client w2) = d2
  /\ (forall (platform : Platform) (calls : list Call),
        forallb (fun call => negb (saves_session call)) calls = true ->
        Forall (fun config : Config =>
                  exists t, session_bearer d2 = Some t
                            /\ config !! "headers" = Some (authorization_headers t))
          (issued w2 (run_all axiosInstance fileTypeFromBuffer readFile
                        platform calls w2))
        /\ (forall (refreshToken : JsValue) (t : string),
              get_prop d2 "refreshToken" = Some refreshToken ->
              session_bearer d2 = Some t ->
              let w3 := run_all axiosInstance fileTypeFromBuffer readFile
                          platform calls w2 in
              exists config : Config,
                issued w3 (snd (refresh axiosInstance w3)) = [config]
                /\ config !! "data" = Some (VObj [("refreshToken", refreshToken)])
                /\ config !! "headers" = Some (authorization_headers t))).
Proof.
  intros Hlogin Hrefresh.
  pose proof (login_outcome axiosInstance clientId secretId w0) as [_ Hd1].
  rewrite Hlogin in Hd1.
  pose proof (refresh_outcome axiosInstance w1) as [Hfst Hd2].
  rewrite Hrefresh in Hfst, Hd2. simpl in Hfst.
  split; [|split].
  - rewrite Hd1 in Hfst.
    destruct (get_prop d1 "refreshToken") as [refreshToken|] eqn:Hrt;
      [|discriminate Hfst].
    rewrite request_unfold in Hfst.
    rewrite bearer_headers_attached in Hfst by now lookup_fields.
    destruct (session_bearer (loginData (client w1))) as [t|] eqn:Ht;
      [|discriminate Hfst].
    exists refreshToken. eexists. split; [reflexivity|].
    split; [|apply request_config_data].
    replace w2 with (snd (refresh axiosInstance w1)) by now rewrite Hrefresh.
    apply refresh_issued; [now rewrite Hd1 | exact Ht].
  - exact Hd2.
  - intros platform calls Hcalls. split.
    + rewrite <- Hd2. now apply run_all_headers.
    + intros refreshToken t Hrt Ht w3.
      assert (loginData (client w3) = d2) as Hd3.
      { unfold w3. now rewrite run_all_client. }
      rewrite <- Hd3 in Hrt, Ht.
      eexists. split; [apply (refresh_issued _ _ _ _ Hrt Ht)|].
      split; [apply request_config_data | apply request_config_headers].
Qed.

Lemma login_then_refresh_witness :
  loginData (client (snd (refresh demo_service
                            (snd (login demo_service "cid" "sid" browser_world)))))
  = token_triple "t2" "r2" 3600
  /\ Forall (fun config : Config =>
               exists t, session_bearer (token_triple "t2" "r2" 3600) = Some t
                         /\ config !! "headers" = Some (authorization_headers t))
       (issued (snd (refresh demo_service
                       (snd (login demo_service "cid" "sid" browser_world))))
          (run_all demo_service png_sniffer no_files Browser
             [GetJobStatus "job-1"; GetWebhooks]
             (snd (refresh demo_service
                     (snd (login demo_service "cid" "sid" browser_world)))))).
Proof.
  destruct (login_then_refresh demo_service png_sniffer no_files "cid" "sid"
              browser_world
              (snd (login demo_service "cid" "sid" browser_world))
              (snd (refresh demo_service
                      (snd (login demo_service "cid" "sid" browser_world))))
              (token_triple "t1" "r1" 3600) (token_triple "t2" "r2" 3600))
    as (_ & Hsession & Hlater);
    [vm_compute; reflexivity | vm_compute; reflexivity |].
  split; [exact Hsession|].
  apply (Hlater Browser [GetJobStatus "job-1"; GetWebhooks]). reflexivity.
Defined.

(** The three requests of a login, a refresh and a status request. *)
Example login_refresh_status_tokens :
  (fun config : Config => (field config "url", field config "data", field config "headers"))
    <$> wire (run_all demo_service png_sniffer no_files Browser
                [Login "cid" "sid"; Refresh; GetJobStatus "job-1"] browser_world)
  = [(VStr "/login",
      VObj [("clientId", VStr "cid"); ("secretId", VStr "sid")],
      VObj []);
     (VStr "/token",
      VObj [("refreshToken", VStr "r1")],
      VObj [("Authorization", VStr "Bearer t1")]);
     (VStr "/innovation-service/anonymization?anonymization_job_id=job-1",
      VUndefined,
      VObj [("Authorization", VStr "Bearer t2")])].
Proof. vm_compute. reflexivity. Qed.

(** ** Creating a job *)

(** The form of a job: the input media first, the option fields after. *)
Lemma createJob_form_first (args : CreateJobArgs) :
  createJob_form args
  = ("input_media",
     FBinary (args_data args)
       (match args_data args with
        | IsFile f => Some (file_name f)
        | IsBlob _ => args_filename args
        end))
    :: option_entries (args_options args).
Proof.
  unfold createJob_form, option_entries, FormData_append_file.
  destruct (truthy (args_options args)); simpl; [|reflexivity].
  now rewrite appendFormData_appends.
Qed.

(** What [createJob] hands to the transport when the session can be read. *)
Lemma createJob_sent (axiosInstance : Transport) (args : CreateJobArgs) (w : World)
    (t : string) :
  session_bearer (loginData (client w)) = Some t ->
  job_request_sent w (snd (createJob axiosInstance args w)) t (createJob_form args).
Proof.
  intros Ht. unfold job_request_sent, createJob.
  rewrite request_issued, bearer_headers_attached, Ht by now lookup_fields.
  eexists. split; [reflexivity|].
  split; [|split; [|apply request_config_headers]].
  - rewrite request_config_data. now lookup_fields.
  - rewrite request_config_lookup by discriminate. now lookup_fields.
Qed.

(** C6, as the code has it: every create-job call on a client whose
    session can be read sends exactly one request, a [POST] whose form
    starts with the input media under [input_media], with its file name
    (the name of a [File], the [filename] argument of a buffer or a
    [Blob], the last segment of a path), the option fields following.  The
    content type is the one sniffed from the bytes for a buffer and for a
    path; a [File] or a [Blob] is sent as the caller made it, content type
    included.  [createJobFromPath] throws, with nothing sent, when the
    file cannot be read. *)
Theorem create_job_input_media (axiosInstance : Transport)
    (fileTypeFromBuffer : list Byte.byte -> option FileTypeResult)
    (readFile : string -> option (list Byte.byte)) (w : World) (t : string) :
  session_bearer (loginData (client w)) = Some t ->
  (forall (buffer : list Byte.byte) (filename : string) (options : JsValue),
      job_request_sent w
        (snd (createJobFromBuffer axiosInstance fileTypeFromBuffer
                buffer filename options w)) t
        (("input_media",
          FBinary (IsBlob {| blob_bytes := buffer;
                             blob_type := mime <$> fileTypeFromBuffer buffer |})
            (Some filename))
         :: option_entries options))
  /\ (forall (file : File) (options : JsValue),
        job_request_sent w
          (snd (createJobFromFile axiosInstance file options w)) t
          (("input_media", FBinary (IsFile file) (Some (file_name file)))
           :: option_entries options))
  /\ (forall (blob : FileOrBlob) (filename : string) (options : JsValue),
        job_request_sent w
          (snd (createJobFromBlob axiosInstance blob filename options w)) t
          (("input_media",
            FBinary blob
              (match blob with
               | IsFile f => Some (file_name f)
               | IsBlob _ => Some filename
               end))
           :: option_entries options))
  /\ (forall (filePath : string) (options : JsValue),
        match readFile filePath with
        | Some buffer =>
            job_request_sent w
              (snd (Node_createJobFromPath axiosInstance fileTypeFromBuffer
                      readFile filePath options w)) t
              (("input_media",
                FBinary (IsBlob {| blob_bytes := buffer;
                                   blob_type := mime <$> fileTypeFromBuffer buffer |})
                  (Some (last_segment filePath)))
               :: option_entries options)
        | None =>
            Node_createJobFromPath axiosInstance fileTypeFromBuffer readFile
              filePath options w
            = (Threw (FsFailure filePath), w)
        end).
Proof.
  intros Ht. split; [|split; [|split]].
  - intros buffer filename options.
    pose proof (createJob_sent axiosInstance
                  {| args_data := IsBlob {| blob_bytes := buffer;
                                            blob_type := mime <$> fileTypeFromBuffer buffer |};
                     args_filename := Some filename;
                     args_options := options |} w t Ht) as H.
    now rewrite createJob_form_first in H.
  - intros file options.
    pose proof (createJob_sent axiosInstance
                  {| args_data := IsFile file; args_filename := None;
                     args_options := options |} w t Ht) as H.
    now rewrite createJob_form_first in H.
  - intros blob filename options.
    pose proof (createJob_sent axiosInstance
                  {| args_data := blob; args_filename := Some filename;
                     args_options := options |} w t Ht) as H.
    now rewrite createJob_form_first in H.
  - intros filePath options. unfold Node_createJobFromPath.
    destruct (readFile filePath) as [buffer|]; [|reflexivity].
    pose proof (createJob_sent axiosInstance
                  {| args_data := IsBlob {| blob_bytes := buffer;
                                            blob_type := mime <$> fileTypeFromBuffer buffer |};
                     args_filename := Some (last_segment filePath);
                     args_options := options |} w t Ht) as H.
    now rewrite createJob_form_first in H.
Qed.

Lemma create_job_input_media_witness :
  job_request_sent logged_in_world
    (snd (createJobFromBlob accepting_service
            (IsBlob {| blob_bytes := []; blob_type := Some "text/plain" |})
            "notes.png" (js_of_AnonymizationOptions example_options)
            logged_in_world))
    "t1"
    [("input_media",
      FBinary (IsBlob {| blob_bytes := []; blob_type := Some "text/plain" |})
        (Some "notes.png"));
     ("activation_faces_blur", FText "true");
     ("blur_type[anonymization_type]", FText "pixelate");
     ("blur_type[num_pixels]", FText "10")].
Proof.
  apply (proj1 (proj2 (proj2 (create_job_input_media accepting_service png_sniffer
                                no_files logged_in_world "t1" eq_refl)))
           (IsBlob {| blob_bytes := []; blob_type := Some "text/plain" |})
           "notes.png" (js_of_AnonymizationOptions example_options)).
Defined.

(** A job made from a buffer and one made from a [Blob], as sent. *)
Example createJobFromBuffer_form :
  (fun config : Config => config !! "data")
    <$> issued logged_in_world
          (snd (createJobFromBuffer accepting_service png_sniffer [] "face.jpg"
                  (js_of_AnonymizationOptions example_options) logged_in_world))
  = [Some (VFormData
             [("input_media",
               FBinary (IsBlob {| blob_bytes := []; blob_type := Some "image/png" |})
                 (Some "face.jpg"));
              ("activation_faces_blur", FText "true");
              ("blur_type[anonymization_type]", FText "pixelate");
              ("blur_type[num_pixels]", FText "10")])].
Proof. vm_compute. reflexivity. Qed.

(** A [Blob] whose content type the caller set is sent with that content
    type, whatever its bytes would be sniffed as. *)
Lemma blob_content_type_not_sniffed : ~ content_type_sniffed.
Proof.
  intros Hclaim.
  set (blob := {| blob_bytes := []; blob_type := Some "text/plain" |}).
  set (options := ({[ "method" := VStr "POST";
                      "data" := VFormData
                                  [("input_media",
                                    FBinary (IsBlob blob) (Some "notes.png"))] ]}
                   : Config)).
  specialize (Hclaim accepting_service png_sniffer no_files Browser
                (CreateJobFromBlob (IsBlob blob) "notes.png" VUndefined)
                logged_in_world
                (request_config (client logged_in_world)
                   "/innovation-service/anonymization" options
                   (field options "data") (authorization_headers "t1"))
                (IsBlob blob) (Some "notes.png") []).
  assert (blob_type (part_blob (IsBlob blob))
          = mime <$> png_sniffer (blob_bytes (part_blob (IsBlob blob)))) as Habsurd;
    [|discriminate Habsurd].
  apply Hclaim.
  - reflexivity.
  - rewrite run_issued.
    change (request_of png_sniffer no_files Browser (client logged_in_world)
              (CreateJobFromBlob (IsBlob blob) "notes.png" VUndefined))
      with (Some ("/innovation-service/anonymization", options)).
    replace (bearer_headers (client logged_in_world) options)
      with (Some (authorization_headers "t1")) by (vm_compute; reflexivity).
    apply list_elem_of_singleton. reflexivity.
  - rewrite request_config_data. vm_compute. reflexivity.
Qed.

(** ** The runtime *)

Lemma run_all_isNode (axiosInstance : Transport)
    (fileTypeFromBuffer : list Byte.byte -> option FileTypeResult)
    (readFile : string -> option (list Byte.byte))
    (platform : Platform) (calls : list Call) (w : World) :
  isNode (client (run_all axiosInstance fileTypeFromBuffer readFile platform calls w))
  = isNode (client w).
Proof.
  revert w. induction calls as [|call rest IH]; intros w; simpl; [reflexivity|].
  rewrite IH. apply run_readonly.
Qed.

(** C4: in the browser class [createJobFromPath] and [saveResultFile]
    throw their error and nothing else happens; on a client constructed
    where [window] is defined, [getResultFile] with the [buffer] or the
    [stream] representation, and with it the [saveResultFile] of the
    Node.js class, throws its error and nothing else happens; so no
    request reaches the transport.  The flag is computed by the
    constructor and no call changes it. *)
Theorem filesystem_methods_unsupported (axiosInstance : Transport)
    (fileTypeFromBuffer : list Byte.byte -> option FileTypeResult)
    (readFile : string -> option (list Byte.byte)) (w : World) :
  (forall (filePath : string) (options : JsValue),
      run axiosInstance fileTypeFromBuffer readFile Browser
        (CreateJobFromPath filePath options) w
      = (Threw (JsError "createJobFromPath is only available in Node.js"), w))
  /\ (forall (filename outputFilename : string),
        run axiosInstance fileTypeFromBuffer readFile Browser
          (SaveResultFile filename outputFilename) w
        = (Threw (JsError "saveResultFile is only available in Node.js"), w))
  /\ (isNode (client w) = false ->
      forall (platform : Platform) (filename : string) (responseType : ResponseType),
        responseType = rt_buffer \/ responseType = rt_stream ->
        run axiosInstance fileTypeFromBuffer readFile platform
          (GetResultFile filename responseType) w
        = (Threw (JsError (ResponseType_name responseType
                           +:+ " is not supported in the browser")), w))
  /\ (isNode (client w) = false ->
      forall (filename outputFilename : string),
        run axiosInstance fileTypeFromBuffer readFile NodeJs
          (SaveResultFile filename outputFilename) w
        = (Threw (JsError "stream is not supported in the browser"), w))
  /\ (forall (window_defined : bool) (fetchInit : option Config),
        isNode (constructor window_defined fetchInit) = negb window_defined)
  /\ (forall (platform : Platform) (calls : list Call),
        isNode (client (run_all axiosInstance fileTypeFromBuffer readFile
                          platform calls w))
        = isNode (client w)).
Proof.
  split; [|split; [|split; [|split; [|split]]]].
  - reflexivity.
  - reflexivity.
  - intros HisNode platform filename responseType Htype.
    unfold_methods. rewrite HisNode.
    destruct Htype as [-> | ->]; reflexivity.
  - intros HisNode filename outputFilename.
    unfold_methods. now rewrite HisNode.
  - reflexivity.
  - intros platform calls. apply run_all_isNode.
Qed.

Lemma filesystem_methods_unsupported_witness :
  run demo_service png_sniffer no_files Browser
    (GetResultFile "result.jpeg" rt_stream) browser_world
  = (Threw (JsError "stream is not supported in the browser"), browser_world).
Proof.
  apply (proj1 (proj2 (proj2 (filesystem_methods_unsupported demo_service
                                png_sniffer no_files browser_world)))).
  - reflexivity.
  - right. reflexivity.
Defined.

(** * Further properties of the methods *)

Section Outcomes.

Variable axiosInstance : Transport.
Variable fileTypeFromBuffer : list Byte.byte -> option FileTypeResult.
Variable readFile : string -> option (list Byte.byte).

(** A method whose pipeline call throws ends as the pipeline call did. *)
Lemma run_threw (platform : Platform) (call : Call) (w : World)
    (path : string) (options : Config) (e : Thrown) :
  request_of fileTypeFromBuffer readFile platform (client w) call = Some (path, options) ->
  fst (request axiosInstance path options w) = Threw e ->
  run axiosInstance fileTypeFromBuffer readFile platform call w
  = (Threw e, snd (request axiosInstance path options w)).
Proof.
  unfold request_of.
  destruct call; unfold_methods; simpl; try destruct platform;
    repeat match goal with
           | |- context [get_prop ?v ?k] => destruct (get_prop v k); simpl
           | |- context [readFile ?f] => destruct (readFile f); simpl
           | |- context [negb (isNode (client w)) && ?c] =>
               destruct (negb (isNode (client w)) && c)
           end;
    intros Hcall; try discriminate Hcall;
    injection Hcall as <- <-; intros Hthrew;
    unfold_methods;
    destruct (request _ _ _ w) as [[d|e'] w']; simpl in *;
    try discriminate Hthrew; congruence.
Qed.

(** A method other than [saveResultFile] whose pipeline call returns hands
    back what the pipeline call returned. *)
Lemma run_returned (platform : Platform) (call : Call) (w : World)
    (path : string) (options : Config) (d : JsValue) :
  request_of fileTypeFromBuffer readFile platform (client w) call = Some (path, options) ->
  fst (request axiosInstance path options w) = Returned d ->
  writes_file platform call = false ->
  fst (run axiosInstance fileTypeFromBuffer readFile platform call w) = Returned d.
Proof.
  unfold request_of.
  destruct call; unfold_methods; simpl; try destruct platform;
    repeat match goal with
           | |- context [get_prop ?v ?k] => destruct (get_prop v k); simpl
           | |- context [readFile ?f] => destruct (readFile f); simpl
           | |- context [negb (isNode (client w)) && ?c] =>
               destruct (negb (isNode (client w)) && c)
           end;
    intros Hcall; try discriminate Hcall;
    injection Hcall as <- <-; intros Hreturned Hwrites;
    try discriminate Hwrites;
    unfold_methods;
    destruct (request _ _ _ w) as [[d'|e'] w']; simpl in *;
    try discriminate Hreturned; congruence.
Qed.

End Outcomes.

(** X1: a failure of the transport goes through every method as it is: the
    method throws what the transport raised, after handing it the one
    request, and neither the client nor the write streams have changed. *)
Theorem transport_failure_propagates (axiosInstance : Transport)
    (fileTypeFromBuffer : list Byte.byte -> option FileTypeResult)
    (readFile : string -> option (list Byte.byte))
    (platform : Platform) (call : Call) (w : World)
    (path : string) (options : Config) (headers : JsValue) (reason : string) :
  request_of fileTypeFromBuffer readFile platform (client w) call = Some (path, options) ->
  bearer_headers (client w) options = Some headers ->
  axiosInstance (wire w)
    (request_config (client w) path options (field options "data") headers)
  = Rejected reason ->
  run axiosInstance fileTypeFromBuffer readFile platform call w
  = (Threw (TransportFailure reason),
     {| client := client w;
        wire := wire w ++ [request_config (client w) path options
                             (field options "data") headers];
        writeStreams := writeStreams w |}).
Proof.
  intros Hcall Hheaders Hrejected.
  assert (request axiosInstance path options w
          = (Threw (TransportFailure reason),
             {| client := client w;
                wire := wire w ++ [request_config (client w) path options
                                     (field options "data") headers];
                writeStreams := writeStreams w |})) as Hrequest.
  { rewrite request_unfold, Hheaders. simpl. now rewrite Hrejected. }
  rewrite (run_threw _ _ _ _ _ _ _ _ (TransportFailure reason) Hcall)
    by now rewrite Hrequest.
  now rewrite Hrequest.
Qed.

Lemma transport_failure_propagates_witness :
  fst (run unreachable_service png_sniffer no_files NodeJs
         (Login "cid" "sid") browser_world)
  = Threw (TransportFailure "connect ECONNREFUSED")
  /\ loginData (client (snd (run unreachable_service png_sniffer no_files NodeJs
                               (Login "cid" "sid") browser_world)))
     = VObj [].
Proof.
  rewrite (transport_failure_propagates unreachable_service png_sniffer no_files
             NodeJs (Login "cid" "sid") browser_world
             "/login" (login_options "cid" "sid") (VObj [])
             "connect ECONNREFUSED");
    [split; reflexivity | reflexivity | vm_compute; reflexivity | reflexivity].
Defined.

(** X2: whenever the transport hands a response over to the pipeline, the
    status rule holds for every method: with a status below 300 every
    method but [saveResultFile] returns the response body as it is, and
    with a status of 300 or more every method throws the error of the
    pipeline, the client and the write streams being as before.  (The
    default instance hands over no status of 300 or more; a client whose
    base configuration switches its check off gets them.) *)
Theorem method_result_from_response (axiosInstance : Transport)
    (fileTypeFromBuffer : list Byte.byte -> option FileTypeResult)
    (readFile : string -> option (list Byte.byte))
    (platform : Platform) (call : Call) (w : World)
    (path : string) (options : Config) (headers : JsValue) (res : Response) :
  request_of fileTypeFromBuffer readFile platform (client w) call = Some (path, options) ->
  bearer_headers (client w) options = Some headers ->
  axiosInstance (wire w)
    (request_config (client w) path options (field options "data") headers)
  = Responded res ->
  (status res < 300 -> writes_file platform call = false ->
   fst (run axiosInstance fileTypeFromBuffer readFile platform call w)
   = Returned (data res))
  /\ (300 <= status res ->
      run axiosInstance fileTypeFromBuffer readFile platform call w
      = (Threw (JsError ("Error calling " +:+ path +:+ ": " +:+ statusText res)),
         {| client := client w;
            wire := wire w ++ [request_config (client w) path options
                                 (field options "data") headers];
            writeStreams := writeStreams w |})).
Proof.
  intros Hcall Hheaders Hres.
  pose proof (request_unfold axiosInstance path options w) as Hrequest.
  rewrite Hheaders in Hrequest. simpl in Hrequest. rewrite Hres in Hrequest.
  split.
  - intros Hstatus Hwrites.
    apply (run_returned _ _ _ _ _ _ _ _ _ Hcall); [|assumption].
    rewrite Hrequest. simpl.
    now replace (300 <=? status res) with false by (symmetry; apply Z.leb_gt; lia).
  - intros Hstatus.
    replace (300 <=? status res) with true in Hrequest
      by (symmetry; apply Z.leb_le; lia).
    rewrite (run_threw _ _ _ _ _ _ _ _
               (JsError ("Error calling " +:+ path +:+ ": " +:+ statusText res)) Hcall)
      by now rewrite Hrequest.
    now rewrite Hrequest.
Qed.

Lemma method_result_from_response_witness :
  fst (run (axios_create accepting_service) png_sniffer no_files Browser
         (CreateJobFromBuffer [] "face.jpg" VUndefined) logged_in_world)
  = Returned (VObj [("anonymization_job_id", VStr "job-1")])
  /\ fst (run (axios_create demo_network) png_sniffer no_files Browser
            (DeleteWebhook "w1") lenient_world)
     = Threw (JsError "Error calling /webhook-url/w1: Not Found").
Proof.
  split.
  - destruct (method_result_from_response (axios_create accepting_service)
                png_sniffer no_files
                Browser (CreateJobFromBuffer [] "face.jpg" VUndefined)
                logged_in_world "/innovation-service/anonymization"
                {[ "method" := VStr "POST";
                   "data" := VFormData
                               [("input_media",
                                 FBinary (IsBlob {| blob_bytes := [];
                                                    blob_type := Some "image/png" |})
                                   (Some "face.jpg"))] ]}
                (authorization_headers "t1")
                {| status := 200; statusText := "OK";
                   data := VObj [("anonymization_job_id", VStr "job-1")] |})
      as [Hreturned _];
      [reflexivity | vm_compute; reflexivity | vm_compute; reflexivity |].
    apply Hreturned; [simpl; lia | reflexivity].
  - destruct (method_result_from_response (axios_create demo_network)
                png_sniffer no_files
                Browser (DeleteWebhook "w1") lenient_world
                "/webhook-url/w1" {[ "method" := VStr "DELETE" ]}
                (authorization_headers "t1")
                {| status := 404; statusText := "Not Found"; data := VNull |})
      as [_ Hthrew];
      [reflexivity | vm_compute; reflexivity | vm_compute; reflexivity |].
    rewrite Hthrew; [reflexivity | simpl; lia].
Defined.

(** X3: no method retries or fans out: a call hands at most one request to
    the transport, and a sequence of calls hands over at most as many
    requests as it has calls, after the requests that were there before,
    none of which is dropped or reordered. *)
Theorem at_most_one_request_per_call (axiosInstance : Transport)
    (fileTypeFromBuffer : list Byte.byte -> option FileTypeResult)
    (readFile : string -> option (list Byte.byte))
    (platform : Platform) (calls : list Call) (w : World) :
  let w' := run_all axiosInstance fileTypeFromBuffer readFile platform calls w in
  wire w' = wire w ++ issued w w'
  /\ (length (issued w w') <= length calls)%nat.
Proof.
  simpl. split; [apply run_all_wire_app|].
  revert w. induction calls as [|call rest IH]; intros w.
  - simpl. now rewrite issued_nothing.
  - rewrite run_all_cons_issued, length_app. simpl.
    specialize (IH (snd (run axiosInstance fileTypeFromBuffer readFile platform call w))).
    assert (length (issued w (snd (run axiosInstance fileTypeFromBuffer readFile
                                     platform call w))) <= 1)%nat.
    { rewrite run_issued.
      destruct (request_of _ _ _ _ _) as [[path options]|]; [|simpl; lia].
      destruct (bearer_headers _ _); simpl; lia. }
    lia.
Qed.

(** ** Files *)

(** X4: [saveResultFile] of the Node.js class touches the file system only
    once the download has returned: when the download throws, the same
    error is thrown and no write stream has been created; when it returns
    a stream, one write stream for the output file has been created with
    that stream piped into it, and the method returns [undefined] at once,
    without waiting for the write. *)
Theorem saveResultFile_pipes_after_download (axiosInstance : Transport)
    (filename outputFilename : string) (w : World) :
  (forall e : Thrown,
      fst (getResultFile axiosInstance filename rt_stream w) = Threw e ->
      fst (Node_saveResultFile axiosInstance filename outputFilename w) = Threw e
      /\ writeStreams (snd (Node_saveResultFile axiosInstance filename outputFilename w))
         = writeStreams w)
  /\ (forall bytes : list Byte.byte,
        fst (getResultFile axiosInstance filename rt_stream w)
        = Returned (VStream bytes) ->
        fst (Node_saveResultFile axiosInstance filename outputFilename w)
        = Returned VUndefined
        /\ writeStreams (snd (Node_saveResultFile axiosInstance filename outputFilename w))
           = writeStreams w ++ [(outputFilename, bytes)]).
Proof.
  unfold Node_saveResultFile, getResultFile, pipe_to_write_stream,
    mbind, M_bind, get_this, throw, mret, M_ret.
  destruct (negb (isNode (client w)) && _); simpl.
  - split; [intros e He; injection He as <-; auto | discriminate].
  - name_request. destruct r as [d|e']; simpl.
    + split; [discriminate|]. intros bytes Hd. injection Hd as ->. simpl.
      split; [reflexivity | congruence].
    + split; [|discriminate]. intros e He. injection He as <-. auto.
Qed.

Lemma saveResultFile_pipes_after_download_witness :
  writeStreams (snd (Node_saveResultFile download_service "result.jpeg" "./out.jpeg"
               logged_in_world))
  = [("./out.jpeg", [Byte.xff; Byte.xd8; Byte.xff])]
  /\ writeStreams (snd (Node_saveResultFile demo_service "result.jpeg" "./out.jpeg"
                  logged_in_world))
     = [].
Proof.
  split.
  - apply (proj2 (saveResultFile_pipes_after_download download_service
                    "result.jpeg" "./out.jpeg" logged_in_world)
             [Byte.xff; Byte.xd8; Byte.xff]).
    vm_compute. reflexivity.
  - apply (proj1 (saveResultFile_pipes_after_download demo_service
                    "result.jpeg" "./out.jpeg" logged_in_world)
             (TransportFailure "Request failed with status code 404")).
    vm_compute. reflexivity.
Defined.

(** X5: no method other than [saveResultFile] of the Node.js class creates
    a write stream, so no other method writes a file. *)
Theorem other_calls_write_nothing (axiosInstance : Transport)
    (fileTypeFromBuffer : list Byte.byte -> option FileTypeResult)
    (readFile : string -> option (list Byte.byte))
    (platform : Platform) (call : Call) (w : World) :
  writes_file platform call = false ->
  writeStreams (snd (run axiosInstance fileTypeFromBuffer readFile platform call w)) = writeStreams w.
Proof.
  intros Hcall.
  destruct call; unfold_methods; try destruct platform; try discriminate Hcall;
    simpl; try reflexivity;
    repeat match goal with
           | |- context [get_prop ?v ?k] => destruct (get_prop v k); simpl
           | |- context [readFile ?f] => destruct (readFile f); simpl
           | |- context [negb (isNode (client w)) && ?c] =>
               destruct (negb (isNode (client w)) && c); simpl
           end;
    try reflexivity;
    name_request; destruct r as [d|e]; simpl; assumption.
Qed.

Lemma other_calls_write_nothing_witness :
  writeStreams (snd (run download_service png_sniffer no_files NodeJs
               (GetResultFile "result.jpeg" rt_stream) logged_in_world))
  = [].
Proof.
  apply (other_calls_write_nothing download_service png_sniffer no_files NodeJs
           (GetResultFile "result.jpeg" rt_stream) logged_in_world).
  reflexivity.
Defined.

(** X6: where [getResultFile] is not refused (on a client constructed
    without [window], or for the [arraybuffer] and [blob] representations)
    and the session can be read, it issues one [GET] whose [responseType]
    is the one asked for, except that ["buffer"] is sent as
    ["arraybuffer"]; the base configuration cannot change either field. *)
Theorem getResultFile_request (axiosInstance : Transport) (filename : string)
    (responseType : ResponseType) (w : World) (t : string) :
  isNode (client w) = true
  \/ responseType = rt_arraybuffer \/ responseType = rt_blob ->
  session_bearer (loginData (client w)) = Some t ->
  exists config : Config,
    issued w (snd (getResultFile axiosInstance filename responseType w)) = [config]
    /\ config !! "method" = Some (VStr "GET")
    /\ config !! "responseType"
       = Some (VStr (match responseType with
                     | rt_stream => "stream"
                     | rt_blob => "blob"
                     | rt_arraybuffer | rt_buffer => "arraybuffer"
                     end))
    /\ config !! "headers" = Some (authorization_headers t).
Proof.
  intros Hallowed Ht.
  unfold getResultFile, mbind, M_bind, get_this.
  assert (negb (isNode (client w))
          && (match responseType with rt_buffer | rt_stream => true | _ => false end)
          = false) as ->.
  { destruct Hallowed as [-> | [-> | ->]]; [reflexivity| |]; apply andb_false_r. }
  rewrite request_issued, bearer_headers_attached, Ht by now lookup_fields.
  eexists. split; [reflexivity|].
  split; [|split; [|apply request_config_headers]].
  - rewrite request_config_lookup by discriminate. now lookup_fields.
  - rewrite request_config_lookup by discriminate. lookup_fields.
    now destruct responseType.
Qed.

Lemma getResultFile_request_witness :
  exists config : Config,
    issued logged_in_world
      (snd (getResultFile download_service "result.jpeg" rt_buffer logged_in_world))
    = [config]
    /\ config !! "responseType" = Some (VStr "arraybuffer").
Proof.
  destruct (getResultFile_request download_service "result.jpeg" rt_buffer
              logged_in_world "t1")
    as (config & Hissued & _ & Htype & _);
    [left; reflexivity | reflexivity |].
  exists config. split; assumption.
Defined.

(** ** Sessions *)

Section Sessions.

Variable axiosInstance : Transport.
Variable fileTypeFromBuffer : list Byte.byte -> option FileTypeResult.
Variable readFile : string -> option (list Byte.byte).

(** A method that does not get to the pipeline fails where it stands. *)
Lemma run_without_request (platform : Platform) (call : Call) (w : World) :
  request_of fileTypeFromBuffer readFile platform (client w) call = None ->
  exists e, run axiosInstance fileTypeFromBuffer readFile platform call w = (Threw e, w).
Proof.
  unfold request_of.
  destruct call; unfold_methods; simpl; try destruct platform;
    repeat match goal with
           | |- context [get_prop ?v ?k] => destruct (get_prop v k); simpl
           | |- context [readFile ?f] => destruct (readFile f); simpl
           | |- context [negb (isNode (client w)) && ?c] =>
               destruct (negb (isNode (client w)) && c); simpl
           end;
    intros Hcall; try discriminate Hcall; eauto.
Qed.

(** No per-call options name a [url]. *)
Lemma request_of_no_url (platform : Platform) (this : Blurit) (call : Call)
    (path : string) (options : Config) :
  request_of fileTypeFromBuffer readFile platform this call = Some (path, options) ->
  options !! "url" = None.
Proof.
  unfold request_of.
  destruct call; simpl; try destruct platform;
    repeat match goal with
           | |- context [get_prop ?v ?k] => destruct (get_prop v k); simpl
           | |- context [readFile ?f] => destruct (readFile f); simpl
           | |- context [negb (isNode this) && ?c] => destruct (negb (isNode this) && c)
           end;
    intros Hcall; try discriminate Hcall;
    injection Hcall as <- <-; now lookup_fields.
Qed.

(** What a returning pipeline call returns came from the transport. *)
Lemma request_returned (path : string) (options : Config) (w w' : World) (d : JsValue) :
  request axiosInstance path options w = (Returned d, w') ->
  server_provided axiosInstance d.
Proof.
  rewrite request_unfold.
  destruct (bearer_headers (client w) options) as [headers|]; [|discriminate].
  simpl. destruct (axiosInstance _ _) as [res|reason] eqn:Hres; [|discriminate].
  destruct (300 <=? status res) eqn:Hstatus; [discriminate|].
  intros H. injection H as <- _.
  exists (wire w), (request_config (client w) path options (field options "data") headers), res.
  split; [assumption|]. split; [|reflexivity]. now apply Z.leb_gt.
Qed.

(** The session after a call is the one before it or came from the
    transport. *)
Lemma run_session (platform : Platform) (call : Call) (w : World) :
  let w' := snd (run axiosInstance fileTypeFromBuffer readFile platform call w) in
  loginData (client w') = loginData (client w)
  \/ server_provided axiosInstance (loginData (client w')).
Proof.
  simpl. destruct (saves_session call) eqn:Hcall.
  - destruct call; try discriminate Hcall; clear Hcall; unfold_methods; simpl.
    + destruct (request _ _ _ w) as [[d|e] w'] eqn:Hrequest; simpl.
      * right. eapply request_returned, Hrequest.
      * left. pose proof (request_frame axiosInstance "/login"
                            (login_options clientId secretId) w) as H.
        rewrite Hrequest in H. simpl in H. destruct H as [H _]. now rewrite H.
    + destruct (get_prop (loginData (client w)) "refreshToken") as [refreshToken|];
        simpl; [|now left].
      destruct (request _ _ _ w) as [[d|e] w'] eqn:Hrequest; simpl.
      * right. eapply request_returned, Hrequest.
      * left. pose proof (request_frame axiosInstance "/token"
                            (refresh_options refreshToken) w) as H.
        rewrite Hrequest in H. simpl in H. destruct H as [H _]. now rewrite H.
  - left. now rewrite run_client.
Qed.

End Sessions.

(** X7: with a session whose token cannot be read (a session a response
    set to [null], say) every method but [login] fails on the spot: it
    throws, nothing is handed to the transport and nothing changes; the
    methods that got as far as their pipeline call throw a [TypeError]. *)
Theorem unreadable_session_fails_locally (axiosInstance : Transport)
    (fileTypeFromBuffer : list Byte.byte -> option FileTypeResult)
    (readFile : string -> option (list Byte.byte))
    (platform : Platform) (call : Call) (w : World) :
  session_bearer (loginData (client w)) = None ->
  (forall clientId secretId : string, call <> Login clientId secretId) ->
  exists e : Thrown,
    run axiosInstance fileTypeFromBuffer readFile platform call w = (Threw e, w)
    /\ (is_Some (request_of fileTypeFromBuffer readFile platform (client w) call) ->
        e = TypeError).
Proof.
  intros Hsession Hcall.
  destruct (request_of fileTypeFromBuffer readFile platform (client w) call)
    as [[path options]|] eqn:Hrequest.
  - exists TypeError. split; [|reflexivity].
    assert (request axiosInstance path options w = (Threw TypeError, w)) as H.
    { rewrite request_unfold, bearer_headers_attached, Hsession; [reflexivity|].
      rewrite (request_of_noBearer _ _ _ _ _ _ _ Hrequest).
      destruct call; try reflexivity. now contradiction (Hcall clientId secretId). }
    rewrite (run_threw _ _ _ _ _ _ _ _ TypeError Hrequest) by now rewrite H.
    now rewrite H.
  - destruct (run_without_request axiosInstance _ _ _ _ _ Hrequest) as [e He].
    exists e. split; [assumption|]. intros [x Hx]. discriminate Hx.
Qed.

Lemma unreadable_session_fails_locally_witness :
  run demo_service png_sniffer no_files NodeJs GetWebhooks null_session_world
  = (Threw TypeError, null_session_world).
Proof.
  destruct (unreadable_session_fails_locally demo_service png_sniffer no_files
              NodeJs GetWebhooks null_session_world)
    as (e & Hrun & He); [reflexivity | discriminate |].
  rewrite Hrun, He; [reflexivity | eexists; reflexivity].
Defined.

(** X8: [login] does not look at the session: whatever the session holds,
    the same request goes out and the same outcome comes back, and when it
    returns the client ends the same. *)
Theorem login_ignores_session (axiosInstance : Transport)
    (clientId secretId : string) (w : World) (session : JsValue) :
  let w0 := {| client := {| loginData := session;
                            fetchInit := fetchInit (client w);
                            isNode := isNode (client w) |};
               wire := wire w; writeStreams := writeStreams w |} in
  fst (login axiosInstance clientId secretId w0)
  = fst (login axiosInstance clientId secretId w)
  /\ wire (snd (login axiosInstance clientId secretId w0))
     = wire (snd (login axiosInstance clientId secretId w))
  /\ (forall d : JsValue,
        fst (login axiosInstance clientId secretId w) = Returned d ->
        snd (login axiosInstance clientId secretId w0)
        = snd (login axiosInstance clientId secretId w)).
Proof.
  simpl. unfold login, saveLoginData, mbind, M_bind, mret, M_ret.
  rewrite !request_unfold.
  rewrite !bearer_headers_suppressed by now lookup_fields.
  simpl. unfold request_config. simpl.
  destruct (axiosInstance _ _) as [res|reason]; simpl.
  - destruct (300 <=? status res); simpl.
    + split; [reflexivity|]. split; [reflexivity|]. discriminate.
    + split; [reflexivity|]. split; [reflexivity|]. reflexivity.
  - split; [reflexivity|]. split; [reflexivity|]. discriminate.
Qed.

Lemma login_ignores_session_witness :
  snd (login demo_service "cid" "sid" null_session_world)
  = snd (login demo_service "cid" "sid"
           {| client := {| loginData := VObj []; fetchInit := None; isNode := true |};
              wire := []; writeStreams := [] |}).
Proof.
  symmetry.
  apply (proj2 (proj2 (login_ignores_session demo_service "cid" "sid"
                         null_session_world (VObj [])))
           (token_triple "t1" "r1" 3600)).
  vm_compute. reflexivity.
Defined.

(** X9: [Blurit.new] hands the one login request to the transport, with no
    [Authorization] header; when the login throws, it throws the same
    error and gives no instance; when the login returns, the instance
    holds the response as its session, the base configuration it was given
    and the runtime flag of the constructor. *)
Theorem new_logs_in_once (axiosInstance : Transport) (window_defined : bool)
    (clientId secretId : string) (base : option Config) :
  let w0 := {| client := constructor window_defined base;
               wire := []; writeStreams := [] |} in
  wire (snd (new axiosInstance window_defined clientId secretId base))
  = [request_config (constructor window_defined base) "/login"
       (login_options clientId secretId)
       (VObj [("clientId", VStr clientId); ("secretId", VStr secretId)])
       (VObj [])]
  /\ match fst (new axiosInstance window_defined clientId secretId base) with
     | Returned instance =>
         fst (request axiosInstance "/login" (login_options clientId secretId) w0)
         = Returned (loginData instance)
         /\ fetchInit instance = base
         /\ isNode instance = negb window_defined
     | Threw e =>
         fst (request axiosInstance "/login" (login_options clientId secretId) w0)
         = Threw e
     end.
Proof.
  simpl. unfold new, login, saveLoginData, mbind, M_bind, mret, M_ret.
  rewrite request_unfold.
  rewrite bearer_headers_suppressed by now lookup_fields.
  simpl. destruct (axiosInstance _ _) as [res|reason]; simpl.
  - destruct (300 <=? status res); simpl; auto.
  - auto.
Qed.

(** X10: the session a client holds after any sequence of calls is the one
    it started with or the body of a response the transport gave with a
    status below 300: the library never makes a session up. *)
Theorem session_comes_from_transport (axiosInstance : Transport)
    (fileTypeFromBuffer : list Byte.byte -> option FileTypeResult)
    (readFile : string -> option (list Byte.byte))
    (platform : Platform) (calls : list Call) (w : World) :
  let w' := run_all axiosInstance fileTypeFromBuffer readFile platform calls w in
  loginData (client w') = loginData (client w)
  \/ server_provided axiosInstance (loginData (client w')).
Proof.
  simpl. revert w. induction calls as [|call rest IH]; intros w; simpl; [now left|].
  destruct (IH (snd (run axiosInstance fileTypeFromBuffer readFile platform call w)))
    as [Hsame|Hprovided]; [|now right].
  rewrite Hsame. apply run_session.
Qed.

(** X11: a [login] or a [refresh] that throws changes nothing for the
    calls after it: their requests carry the token of the session that was
    there before. *)
Theorem thrown_login_or_refresh_keeps_bearer (axiosInstance : Transport)
    (fileTypeFromBuffer : list Byte.byte -> option FileTypeResult)
    (readFile : string -> option (list Byte.byte))
    (platform : Platform) (call : Call) (calls : list Call) (w : World) (e : Thrown) :
  saves_session call = true ->
  fst (run axiosInstance fileTypeFromBuffer readFile platform call w) = Threw e ->
  forallb (fun call => negb (saves_session call)) calls = true ->
  let w1 := snd (run axiosInstance fileTypeFromBuffer readFile platform call w) in
  loginData (client w1) = loginData (client w)
  /\ Forall (fun config : Config =>
               exists t, session_bearer (loginData (client w)) = Some t
                         /\ config !! "headers" = Some (authorization_headers t))
       (issued w1 (run_all axiosInstance fileTypeFromBuffer readFile platform calls w1)).
Proof.
  intros Hcall Hthrew Hcalls. simpl.
  assert (loginData (client (snd (run axiosInstance fileTypeFromBuffer readFile
                                    platform call w)))
          = loginData (client w)) as Hsession.
  { destruct call; try discriminate Hcall; simpl in *.
    - pose proof (login_outcome axiosInstance clientId secretId w) as [_ H].
      destruct (login axiosInstance clientId secretId w) as [[d|e'] w1];
        [discriminate Hthrew | exact H].
    - pose proof (refresh_outcome axiosInstance w) as [_ H].
      destruct (refresh axiosInstance w) as [[d|e'] w1];
        [discriminate Hthrew | exact H]. }
  split; [exact Hsession|].
  rewrite <- Hsession. now apply run_all_headers.
Qed.

Lemma thrown_login_or_refresh_keeps_bearer_witness :
  Forall (fun config : Config =>
            exists t, session_bearer (token_triple "t1" "r1" 3600) = Some t
                      /\ config !! "headers" = Some (authorization_headers t))
    (issued (snd (run unreachable_service png_sniffer no_files NodeJs Refresh
                    logged_in_world))
       (run_all unreachable_service png_sniffer no_files NodeJs [GetWebhooks]
          (snd (run unreachable_service png_sniffer no_files NodeJs Refresh
                  logged_in_world)))).
Proof.
  apply (thrown_login_or_refresh_keeps_bearer unreachable_service png_sniffer no_files NodeJs
           Refresh [GetWebhooks] logged_in_world
           (TransportFailure "connect ECONNREFUSED"));
    [reflexivity | vm_compute; reflexivity | reflexivity].
Defined.

(** X12: the [url] of a request is the route of the method unless the base
    configuration names a [url]: then every request of every method goes
    to that [url] instead. *)
Theorem base_url_replaces_route (axiosInstance : Transport)
    (fileTypeFromBuffer : list Byte.byte -> option FileTypeResult)
    (readFile : string -> option (list Byte.byte))
    (platform : Platform) (call : Call) (w : World)
    (path : string) (options : Config) :
  request_of fileTypeFromBuffer readFile platform (client w) call = Some (path, options) ->
  Forall (fun config : Config =>
            config !! "url"
            = Some (default (VStr path) (spread (fetchInit (client w)) !! "url")))
    (issued w (snd (run axiosInstance fileTypeFromBuffer readFile platform call w))).
Proof.
  intros Hcall. rewrite run_issued, Hcall.
  destruct (bearer_headers (client w) options) as [headers|]; [|constructor].
  apply Forall_singleton.
  rewrite request_config_lookup by discriminate.
  rewrite (request_of_no_url _ _ _ _ _ _ _ Hcall).
  now destruct (spread (fetchInit (client w)) !! "url").
Qed.

Lemma base_url_replaces_route_witness :
  Forall (fun config : Config => config !! "url" = Some (VStr "/elsewhere"))
    (issued redirected_world
       (snd (run demo_service png_sniffer no_files NodeJs GetWebhooks redirected_world)))
  /\ Forall (fun config : Config => config !! "url" = Some (VStr "/webhook-url/get-many"))
       (issued logged_in_world
          (snd (run demo_service png_sniffer no_files NodeJs GetWebhooks
                  logged_in_world))).
Proof.
  split.
  - apply (base_url_replaces_route demo_service png_sniffer no_files NodeJs
             GetWebhooks redirected_world "/webhook-url/get-many"
             {[ "method" := VStr "GET" ]}).
    reflexivity.
  - apply (base_url_replaces_route demo_service png_sniffer no_files NodeJs
             GetWebhooks logged_in_world "/webhook-url/get-many"
             {[ "method" := VStr "GET" ]}).
    reflexivity.
Defined.

(** The request of a redirected client, as it is sent. *)
Example redirected_request :
  (fun config : Config => config !! "url")
    <$> issued redirected_world
          (snd (getJobStatus demo_service "job-1" redirected_world))
  = [Some (VStr "/elsewhere")].
Proof. vm_compute. reflexivity. Qed.

(** X13: on a client that holds the empty session of the constructor,
    every method but [login] that gets to its pipeline call sends its one
    request with the header [Authorization: Bearer undefined]; nothing
    checks that a login has been made. *)
Theorem empty_session_sends_undefined_bearer (axiosInstance : Transport)
    (fileTypeFromBuffer : list Byte.byte -> option FileTypeResult)
    (readFile : string -> option (list Byte.byte))
    (platform : Platform) (call : Call) (w : World)
    (path : string) (options : Config) :
  loginData (client w) = VObj [] ->
  (forall clientId secretId : string, call <> Login clientId secretId) ->
  request_of fileTypeFromBuffer readFile platform (client w) call = Some (path, options) ->
  issued w (snd (run axiosInstance fileTypeFromBuffer readFile platform call w))
  = [request_config (client w) path options (field options "data")
       (authorization_headers "undefined")].
Proof.
  intros Hsession Hcall Hrequest.
  rewrite run_issued, Hrequest, bearer_headers_attached, Hsession; [reflexivity|].
  rewrite (request_of_noBearer _ _ _ _ _ _ _ Hrequest).
  destruct call; try reflexivity. now contradiction (Hcall clientId secretId).
Qed.

Lemma empty_session_sends_undefined_bearer_witness :
  (fun config : Config => config !! "headers")
    <$> issued node_world
          (snd (run demo_service png_sniffer no_files NodeJs
                  (GetJobStatus "job-1") node_world))
  = [Some (VObj [("Authorization", VStr "Bearer undefined")])].
Proof.
  rewrite (empty_session_sends_undefined_bearer demo_service png_sniffer no_files
             NodeJs (GetJobStatus "job-1") node_world
             "/innovation-service/anonymization?anonymization_job_id=job-1"
             {[ "method" := VStr "GET" ]});
    [simpl; now rewrite request_config_headers | reflexivity | discriminate
     | reflexivity].
Defined.

(** ** More on the options encoder *)

Lemma string_app_assoc (a b c : string) : (a +:+ b) +:+ c = a +:+ b +:+ c.
Proof. induction a as [|x a IH]; [reflexivity | exact (f_equal (String x) IH)]. Qed.

Lemma string_app_empty (a : string) : a +:+ EmptyString = a.
Proof. induction a as [|x a IH]; [reflexivity | exact (f_equal (String x) IH)]. Qed.

(** X14: the encoder only appends: whatever the value and the parent key,
    the entries the form held before are still there, in front and in
    order, and what is added does not depend on them. *)
Theorem appendFormData_only_appends (data : JsValue) (formData : list FormEntry)
    (parentKey : option string) :
  appendFormData formData data parentKey
  = formData ++ appendFormData [] data parentKey
  /\ take (length formData) (appendFormData formData data parentKey) = formData.
Proof.
  rewrite appendFormData_appends. split; [reflexivity|].
  now rewrite take_app_length.
Qed.

(** X15: every entry the encoder adds under a parent key that is not empty
    has a name that starts with that key: the fields of a nested structure
    can only land under the name of the structure. *)
Theorem appendFormData_names_under_parent (data : JsValue) (parentKey : string) :
  parentKey <> EmptyString ->
  Forall (fun entry : FormEntry => exists rest, fst entry = parentKey +:+ rest)
    (appendFormData [] data (Some parentKey)).
Proof.
  revert parentKey.
  induction data as [| |b|n|s|items IH|fields IH|b|f|es|bs|bs] using JsValue_ind';
    intros parentKey Hkey; try (now constructor).
  - destruct b; apply Forall_singleton; exists EmptyString;
      simpl; now rewrite string_app_empty.
  - unfold appendFormData. simpl.
    destruct (Number_truthy n); apply Forall_singleton; exists EmptyString;
      simpl; now rewrite string_app_empty.
  - unfold appendFormData. simpl.
    destruct (String.eqb s EmptyString); apply Forall_singleton; exists EmptyString;
      simpl; now rewrite string_app_empty.
  - simpl. generalize 0%nat as i.
    assert (Forall (fun entry : FormEntry => exists rest, fst entry = parentKey +:+ rest)
              ([] : list FormEntry)) as Hacc by constructor.
    revert Hacc. generalize ([] : list FormEntry) as acc.
    induction items as [|x rest IHrest]; intros acc Hacc i; [assumption|].
    apply Forall_cons in IH as [IHx IHr].
    apply (IHrest IHr).
    destruct (negb (nullish x)); [|assumption].
    rewrite appendFormData_appends. apply Forall_app. split; [assumption|].
    rewrite newKey_under by assumption.
    eapply Forall_impl; [apply IHx; now apply append_nonempty|].
    intros entry [suffix Hentry]. eexists. rewrite Hentry. apply string_app_assoc.
  - simpl.
    assert (Forall (fun entry : FormEntry => exists rest, fst entry = parentKey +:+ rest)
              ([] : list FormEntry)) as Hacc by constructor.
    revert Hacc. generalize ([] : list FormEntry) as acc.
    induction fields as [|[key x] rest IHrest]; intros acc Hacc; [assumption|].
    apply Forall_cons in IH as [IHx IHr]. simpl in IHx.
    apply (IHrest IHr).
    destruct (negb (nullish x)); [|assumption].
    rewrite appendFormData_appends. apply Forall_app. split; [assumption|].
    rewrite newKey_under by assumption.
    eapply Forall_impl; [apply IHx; now apply append_nonempty|].
    intros entry [suffix Hentry]. eexists. rewrite Hentry. apply string_app_assoc.
  - apply Forall_singleton. exists EmptyString. simpl. now rewrite string_app_empty.
  - apply Forall_singleton. exists EmptyString. simpl. now rewrite string_app_empty.
Qed.

Lemma appendFormData_names_under_parent_witness :
  Forall (fun entry : FormEntry => exists rest, fst entry = "blur_type" +:+ rest)
    (appendFormData []
       (js_of_BlurType {| anonymization_type := Some pixelate;
                          smooth_padding := None;
                          hex_color := Some "#000000";
                          num_pixels := Some (NInt 10) |})
       (Some "blur_type")).
Proof.
  apply (appendFormData_names_under_parent _ "blur_type"). discriminate.
Defined.

(** ** The file name of a path *)

Lemma split_slash_nonempty (s : string) : split_slash s <> [].
Proof.
  destruct s as [|c s]; simpl; [discriminate|].
  destruct (Ascii.eqb c "/"%char); [discriminate|].
  destruct (split_slash s); discriminate.
Qed.

Lemma split_slash_app (dir name : string) :
  split_slash (dir +:+ String "/"%char name) = split_slash dir ++ split_slash name.
Proof.
  induction dir as [|c dir IH]; simpl; [reflexivity|].
  rewrite IH. destruct (Ascii.eqb c "/"%char); [reflexivity|].
  pose proof (split_slash_nonempty dir) as Hdir.
  destruct (split_slash dir); [congruence | reflexivity].
Qed.

Lemma split_slash_plain (s : string) : has_slash s = false -> split_slash s = [s].
Proof.
  induction s as [|c s IH]; simpl; [reflexivity|].
  destruct (Ascii.eqb c "/"%char); simpl; [discriminate|].
  intros H. now rewrite (IH H).
Qed.

Lemma split_slash_pieces (s : string) :
  Forall (fun piece => has_slash piece = false) (split_slash s).
Proof.
  induction s as [|c s IH]; simpl; [now repeat constructor|].
  destruct (Ascii.eqb c "/"%char) eqn:Hc; [now constructor|].
  destruct (split_slash s) as [|piece pieces]; [now repeat (constructor; simpl; try rewrite Hc)|].
  apply Forall_cons in IH as [Hpiece Hpieces].
  constructor; [|assumption]. simpl. now rewrite Hc.
Qed.

(** X16: the file name [createJobFromPath] sends is what follows the last
    ["/"] of the path: it has no ["/"] in it, it is the whole path when the
    path has none, and it is [name] for a path [dir/name] whose [name] has
    none. *)
Theorem last_segment_is_file_name :
  (forall filePath : string, has_slash (last_segment filePath) = false)
  /\ (forall filePath : string,
        has_slash filePath = false -> last_segment filePath = filePath)
  /\ (forall dir name : string,
        has_slash name = false ->
        last_segment (dir +:+ "/" +:+ name) = name).
Proof.
  unfold last_segment. split; [|split].
  - intros filePath.
    pose proof (split_slash_pieces filePath) as H.
    induction (split_slash filePath) as [|piece pieces IH]; [reflexivity|].
    apply Forall_cons in H as [Hpiece Hpieces].
    destruct pieces; [assumption | now apply IH].
  - intros filePath H. now rewrite split_slash_plain.
  - intros dir name H.
    change (dir +:+ "/" +:+ name) with (dir +:+ String "/"%char name).
    rewrite split_slash_app, (split_slash_plain _ H). apply last_last.
Qed.

Lemma last_segment_is_file_name_witness :
  last_segment ("./images" +:+ "/" +:+ "face.jpg") = "face.jpg".
Proof.
  apply (proj2 (proj2 last_segment_is_file_name) "./images" "face.jpg").
  reflexivity.
Defined.
